(** * go-iban: parsing, validation and display formatting of IBANs

    A shallow embedding of [iban/iban.go].  Go strings are byte sequences
    ([list ascii]); Go's [int] and [rune] are modelled by [Z] (no value in this
    program comes near the 64-bit bounds); a pointer that may be nil is an
    [option]; a call that may panic returns an [outcome].

    The Go standard-library functions the program calls ([strings.Replace],
    [strings.ToUpper], [strconv.Itoa], [strconv.Atoi], [big.Int.SetString],
    [regexp] on the four patterns that occur) are modelled in modules named
    after their packages, from their documented behaviour. *)

From Stdlib Require Import ZArith Ascii String List Bool Lia.
From Stdlib Require Import Numbers.DecimalString.
From Stdlib Require Import ZifyNat.
From stdpp Require Import base option list gmap strings.
From Equations Require Import Equations.
From Equations.Prop Require Import Logic.
Import ListNotations.

Open Scope Z_scope.

(** ** Go values *)

(** A Go string: an immutable sequence of bytes. *)
Abbreviation gostring := (list ascii).

(** A string literal of the source. *)
Definition str (s : string) : gostring := list_ascii_of_string s.

(** [len(s)]. *)
Definition len (s : gostring) : Z := Z.of_nat (length s).

(** The numeric value of a byte, [int(s[k])]. *)
Definition byte_val (b : ascii) : Z := Z.of_N (N_of_ascii b).

(** [byte(z)] for [0 <= z < 256]. *)
Definition byte_of (z : Z) : ascii := ascii_of_N (Z.to_N z).

(** [lo <= z && z <= hi]. *)
Definition between (lo hi z : Z) : bool := (lo <=? z) && (z <=? hi).

(** A Go [error] value is used by this program only through its message and
    through the comparison with [nil]; [option error] is [error]-or-[nil]. *)
Abbreviation error := (list ascii) (only parsing).

(** The run-time panics the program could raise. *)
Inductive panic : Type :=
| SliceBoundsOutOfRange
| NilPointerDereference.

(** The result of running a Go function: it returns, or it panics. *)
Inductive outcome (A : Type) : Type :=
| Returned (a : A)
| Panicked (p : panic).
Arguments Returned {A} a.
Arguments Panicked {A} p.

#[global] Instance outcome_ret : MRet outcome := fun A a => Returned a.
#[global] Instance outcome_bind : MBind outcome := fun A B f m =>
  match m with
  | Returned a => f a
  | Panicked p => Panicked p
  end.

(** [s[lo:hi]]: panics unless [0 <= lo <= hi <= len(s)]. *)
Definition slice (s : gostring) (lo hi : nat) : outcome gostring :=
  if decide (lo ≤ hi ∧ hi ≤ length s)%nat
  then Returned (take (hi - lo) (drop lo s))
  else Panicked SliceBoundsOutOfRange.

(** [s[lo:]]. *)
Definition slice_from (s : gostring) (lo : nat) : outcome gostring :=
  slice s lo (length s).

(** [s[:hi]]. *)
Definition slice_to (s : gostring) (hi : nat) : outcome gostring :=
  slice s 0 hi.

(** [*p]: dereferencing nil panics. *)
Definition deref {A : Type} (p : option A) : outcome A :=
  match p with
  | Some a => Returned a
  | None => Panicked NilPointerDereference
  end.

(** ** Package unicode/utf8 *)

Module utf8.

Definition RuneError : Z := 65533.

(** For a leading byte of a multi-byte sequence: the sequence's size and the
    range accepted for its second byte (tables [first] and [acceptRanges]). *)
Definition lead (b0 : Z) : option (nat * Z * Z) :=
  if between 194 223 b0 then Some (2%nat, 128, 191)
  else if b0 =? 224 then Some (3%nat, 160, 191)
  else if between 225 236 b0 || between 238 239 b0 then Some (3%nat, 128, 191)
  else if b0 =? 237 then Some (3%nat, 128, 159)
  else if b0 =? 240 then Some (4%nat, 144, 191)
  else if between 241 243 b0 then Some (4%nat, 128, 191)
  else if b0 =? 244 then Some (4%nat, 128, 143)
  else None.

(** The six payload bits of a continuation byte, [b & maskx]. *)
Definition payload (b : Z) : Z := Z.land b 63.

(** [utf8.DecodeRuneInString]: the first rune of [s] and its width in bytes;
    an invalid or truncated sequence gives [(RuneError, 1)], the empty string
    [(RuneError, 0)]. *)
Definition DecodeRuneInString (s : gostring) : Z * nat :=
  match s with
  | [] => (RuneError, 0%nat)
  | c0 :: t =>
    let s0 := byte_val c0 in
    if s0 <? 128 then (s0, 1%nat)
    else match lead s0 with
    | None => (RuneError, 1%nat)
    | Some (sz, lo, hi) =>
      match t with
      | [] => (RuneError, 1%nat)
      | c1 :: t1 =>
        let s1 := byte_val c1 in
        if negb (between lo hi s1) then (RuneError, 1%nat)
        else if (sz <=? 2)%nat
        then (Z.lor (Z.shiftl (Z.land s0 31) 6) (payload s1), 2%nat)
        else match t1 with
        | [] => (RuneError, 1%nat)
        | c2 :: t2 =>
          let s2 := byte_val c2 in
          if negb (between 128 191 s2) then (RuneError, 1%nat)
          else if (sz <=? 3)%nat
          then (Z.lor (Z.lor (Z.shiftl (Z.land s0 15) 12)
                             (Z.shiftl (payload s1) 6)) (payload s2), 3%nat)
          else match t2 with
          | [] => (RuneError, 1%nat)
          | c3 :: _ =>
            let s3 := byte_val c3 in
            if negb (between 128 191 s3) then (RuneError, 1%nat)
            else (Z.lor (Z.lor (Z.lor (Z.shiftl (Z.land s0 7) 18)
                                      (Z.shiftl (payload s1) 12))
                               (Z.shiftl (payload s2) 6)) (payload s3), 4%nat)
          end
        end
      end
    end
  end.

(** [for _, c := range s]: the runes of [s] in order.  [skip] counts the bytes
    of the current rune that are still to be passed over. *)
Fixpoint range_from (skip : nat) (s : gostring) : list Z :=
  match s with
  | [] => []
  | _ :: t =>
    match skip with
    | S k => range_from k t
    | O => let '(r, w) := DecodeRuneInString s in r :: range_from (w - 1) t
    end
  end.

Definition range (s : gostring) : list Z := range_from 0 s.

(** [string(r)] for a rune [r] (as [utf8.AppendRune]): the UTF-8 encoding;
    surrogates and values outside Unicode encode as U+FFFD. *)
Definition encode (r : Z) : gostring :=
  let cont (z : Z) := byte_of (Z.lor 128 (Z.land z 63)) in
  if between 0 127 r then [byte_of r]
  else if between 128 2047 r
  then [byte_of (Z.lor 192 (Z.shiftr r 6)); cont r]
  else if (r <? 0) || (1114111 <? r) || between 55296 57343 r
  then [byte_of 239; byte_of 191; byte_of 189]
  else if r <=? 65535
  then [byte_of (Z.lor 224 (Z.shiftr r 12)); cont (Z.shiftr r 6); cont r]
  else [byte_of (Z.lor 240 (Z.shiftr r 18)); cont (Z.shiftr r 12);
        cont (Z.shiftr r 6); cont r].

End utf8.

(** ** Decimal digits *)

Definition is_digit (c : ascii) : bool := between 48 57 (byte_val c).

Definition digit_val (c : ascii) : Z := byte_val c - 48.

(** Reading a run of decimal digits left to right, [n = n*10 + d]; [None] at
    the first byte that is not a digit. *)
Fixpoint scan_digits (acc : Z) (s : gostring) : option Z :=
  match s with
  | [] => Some acc
  | c :: t => if is_digit c then scan_digits (acc * 10 + digit_val c) t else None
  end.

(** An optional leading sign: [(negative, rest)]. *)
Definition scan_sign (s : gostring) : bool * gostring :=
  match s with
  | c :: t =>
    if Ascii.eqb c "-" then (true, t)
    else if Ascii.eqb c "+" then (false, t)
    else (false, s)
  | [] => (false, [])
  end.

(** An optionally signed, non-empty run of decimal digits, and nothing else. *)
Definition scan_decimal (s : gostring) : option Z :=
  let '(neg, ds) := scan_sign s in
  match ds with
  | [] => None
  | _ => (fun n => if neg then - n else n) <$> scan_digits 0 ds
  end.

(** ** Package strconv *)

Module strconv.

(** [strconv.Itoa]. *)
Definition Itoa (i : Z) : gostring := str (NilZero.string_of_int (Z.to_int i)).

Definition quote (s : gostring) : gostring := ["034"%char] ++ s ++ ["034"%char].

Definition maxInt : Z := 2 ^ 63 - 1.
Definition minInt : Z := - 2 ^ 63.

(** [strconv.Atoi] on a 64-bit platform: [(value, error)].  The error text
    is that of [*NumError]; [quote] is [strconv.Quote] on text without
    characters to escape. *)
Definition Atoi (s : gostring) : Z * option error :=
  let numError (why : string) :=
    str "strconv.Atoi: parsing " ++ quote s ++ str ": " ++ str why in
  match scan_decimal s with
  | None => (0, Some (numError "invalid syntax"))
  | Some n =>
    if n <? minInt then (minInt, Some (numError "value out of range"))
    else if maxInt <? n then (maxInt, Some (numError "value out of range"))
    else (n, None)
  end.

End strconv.

(** ** Package math/big *)

Module big.

(** [new(big.Int).SetString(s, 10)]: the value and [true], or failure when
    [s] is not entirely an optionally signed decimal numeral. *)
Definition SetString10 (s : gostring) : option Z := scan_decimal s.

(** [new(big.Int).Mod(x, m)]: the Euclidean modulus, which for [m > 0] is the
    remainder in [0 <= r < m]. *)
Definition Mod (x m : Z) : Z := x mod m.

End big.

(** ** Package strings *)

Module strings.

(** [strings.Replace(s, " ", "", -1)]: every space byte removed. *)
Definition RemoveSpaces (s : gostring) : gostring :=
  filter (fun c => c <> " "%char) s.

Definition isASCII (s : gostring) : bool :=
  forallb (fun c => byte_val c <? 128) s.

Definition hasLower (s : gostring) : bool :=
  existsb (fun c => between 97 122 (byte_val c)) s.

(** The ASCII path of [ToUpper]: ['a'..'z'] moved down by ['a' - 'A']. *)
Definition upperByte (c : ascii) : ascii :=
  if between 97 122 (byte_val c) then byte_of (byte_val c - 32) else c.

(** [strings.Map(mapping, s)]: every rune of [s] replaced by its image, runes
    with a negative image dropped. *)
Definition Map (mapping : Z -> Z) (s : gostring) : gostring :=
  flat_map (fun c => let r := mapping c in if r <? 0 then [] else utf8.encode r)
           (utf8.range s).

(** [strings.ToUpper].  [unicode_ToUpper] stands for [unicode.ToUpper], the
    case table of the Unicode standard, which only the non-ASCII path uses. *)
Definition ToUpper (unicode_ToUpper : Z -> Z) (s : gostring) : gostring :=
  if isASCII s then
    if negb (hasLower s) then s else map upperByte s
  else Map unicode_ToUpper s.

End strings.

(** ** Package regexp, on the patterns of this program *)

Module regexp.

(** *** [[ABCFLUW]\d{2}] *)

Definition is_tag (c : ascii) : bool :=
  existsb (Ascii.eqb c) (str "ABCFLUW").

(** [frx.FindAllString(s, -1)]: the successive non-overlapping leftmost
    matches.  The pattern matches three ASCII bytes, and an ASCII byte always
    begins a rune, so the scan can go byte by byte. *)
Fixpoint FindAllString_frx (s : gostring) : list gostring :=
  match s with
  | [] => []
  | t :: rest =>
    match rest with
    | d1 :: d2 :: rest' =>
      if is_tag t && is_digit d1 && is_digit d2
      then [t; d1; d2] :: FindAllString_frx rest'
      else FindAllString_frx rest
    | _ => []
    end
  end.

(** *** [^[0-9A-Z]*$] *)

Definition is_upper_alnum (c : ascii) : bool :=
  between 48 57 (byte_val c) || between 65 90 (byte_val c).

(** [r.MatchString(s)]: every rune of [s] is in the class; a byte of 128 or
    more only occurs in runes outside it. *)
Definition MatchString_gate (s : gostring) : bool := forallb is_upper_alnum s.

(** *** [^\D\D\d\d] *)

Definition is_digit_rune (r : Z) : bool := between 48 57 r.

(** [r.FindString(s)]: the text of the match at the start of [s], or the
    empty string.  [\D] takes one rune that is not an ASCII digit. *)
Definition FindString_header (s : gostring) : gostring :=
  let '(r1, w1) := utf8.DecodeRuneInString s in
  if (w1 =? 0)%nat || is_digit_rune r1 then [] else
  let s1 := drop w1 s in
  let '(r2, w2) := utf8.DecodeRuneInString s1 in
  if (w2 =? 0)%nat || is_digit_rune r2 then [] else
  match drop w2 s1 with
  | d1 :: d2 :: _ =>
    if is_digit d1 && is_digit d2 then take (w1 + w2 + 2) s else []
  | _ => []
  end.

(** *** The pattern assembled by [validateBban]

    The text of [bbr] is kept as the sequence of the pieces appended to it:
    a bracket expression listing byte ranges, such as [[0-9A-Za-z]], or a
    count [{n}] as [fmt.Sprintf("{%d}", n)] prints it. *)
Inductive piece : Type :=
| Bracket (ranges : list (ascii * ascii))
| Count (n : Z).

(** What a count applies to: a class, or a literal byte. *)
Inductive atom : Type :=
| AClass (ranges : list (ascii * ascii))
| AChar (c : ascii).

(** A compiled pattern: atoms in sequence, each repeated exactly [n] times. *)
Abbreviation prog := (list (atom * nat)).

Definition parseError (why : string) (expr : gostring) : error :=
  str "error parsing regexp: " ++ str why ++ str ": `" ++ expr ++ str "`".

Definition count_text (n : Z) : gostring := str "{" ++ strconv.Itoa n ++ str "}".

(** The parser of [regexp/syntax] on such a text.  [stack] holds the atoms
    read so far, last first; [lastRepeat] is the text of the previous piece
    when that was a repetition.  [{n}] with a negative [n] is not a
    repetition and stands for its own characters; a count above 1000 is
    refused, and so is a repetition of a repetition or of nothing.

    The engine of recent Go versions also refuses, with "expression too
    large", a pattern whose compiled form would take some millions of
    instructions.  That limit is not modelled: [parse] stands for the engine
    on the patterns below it, which the patterns of all descriptors of up to
    [max_descriptor] bytes are, those of the table among them.  What is
    stated of [validateBban] on arbitrary descriptors is stated under that
    bound. *)
Fixpoint parse (stack : prog) (lastRepeat : option gostring) (ps : list piece)
  : prog * option error :=
  match ps with
  | [] => (rev stack, None)
  | Bracket rs :: ps' => parse ((AClass rs, 1%nat) :: stack) None ps'
  | Count n :: ps' =>
    if n <? 0
    then parse (rev (map (fun c => (AChar c, 1%nat)) (count_text n)) ++ stack)
               None ps'
    else if 1000 <? n
    then ([], Some (parseError "invalid repeat count" (count_text n)))
    else match lastRepeat, stack with
    | Some previous, _ =>
      ([], Some (parseError "invalid nested repetition operator"
                            (previous ++ count_text n)))
    | None, [] =>
      ([], Some (parseError "missing argument to repetition operator"
                            (count_text n)))
    | None, (a, _) :: stack' =>
      parse ((a, Z.to_nat n) :: stack') (Some (count_text n)) ps'
    end
  end.

(** [regexp.Compile(bbr)]. *)
Definition Compile (bbr : list piece) : prog * option error := parse [] None bbr.

Definition in_ranges (rs : list (ascii * ascii)) (c : ascii) : bool :=
  existsb (fun '(lo, hi) => between (byte_val lo) (byte_val hi) (byte_val c)) rs.

Definition atom_matches (a : atom) (c : ascii) : bool :=
  match a with
  | AClass rs => in_ranges rs c
  | AChar c' => Ascii.eqb c' c
  end.

(** [n] bytes matching [a] at the start of [s]: what follows them. *)
Fixpoint consume (a : atom) (n : nat) (s : gostring) : option gostring :=
  match n with
  | O => Some s
  | S n' =>
    match s with
    | c :: t => if atom_matches a c then consume a n' t else None
    | [] => None
    end
  end.

(** The pattern matches at the start of [s]. *)
Fixpoint match_here (p : prog) (s : gostring) : bool :=
  match p with
  | [] => true
  | (a, n) :: p' =>
    match consume a n s with
    | Some rest => match_here p' rest
    | None => false
    end
  end.

(** [re.MatchString(s)]: the pattern, which carries no anchor, matches
    somewhere in [s].  Its atoms are ASCII, so a match begins at a rune
    boundary wherever it begins. *)
Fixpoint MatchString (p : prog) (s : gostring) : bool :=
  match_here p s ||
  match s with
  | [] => false
  | _ :: t => MatchString p t
  end.

End regexp.

(** ** Package iban: the data *)

(** [CountrySettings]: length of the IBAN, format of its BBAN, membership. *)
Record CountrySettings : Type := {
  Length : Z;
  Format : gostring;
  Sepa : bool
}.

(** [IBAN].  [countrySettings] is a pointer, nil in the zero value.  The
    methods below take the value their receiver points to. *)
Record IBAN : Type := {
  code : gostring;
  printCode : gostring;
  countryCode : gostring;
  checkDigits : gostring;
  countrySettings : option CountrySettings;
  bban : gostring
}.

Definition entry (cc : string) (l : Z) (f : string) (sepa : bool)
  : gostring * CountrySettings :=
  (str cc, {| Length := l; Format := str f; Sepa := sepa |}).

(** The entries of the map literal [countries], in the order of the source. *)
Definition countries_entries : list (gostring * CountrySettings) := [
  entry "AD" 24 "F04F04A12" false;
  entry "AE" 23 "F03F16" false;
  entry "AL" 28 "F08A16" false;
  entry "AT" 20 "F05F11" true;
  entry "AZ" 28 "U04A20" false;
  entry "BA" 20 "F03F03F08F02" false;
  entry "BE" 16 "F03F07F02" true;
  entry "BG" 22 "U04F04F02A08" true;
  entry "BH" 22 "U04A14" false;
  entry "BR" 29 "F08F05F10U01A01" false;
  entry "CH" 21 "F05A12" true;
  entry "CR" 21 "F03F14" false;
  entry "CY" 28 "F03F05A16" false;
  entry "CZ" 24 "F04F06F10" true;
  entry "DE" 22 "F08F10" true;
  entry "DK" 18 "F04F09F01" true;
  entry "DO" 28 "U04F20" false;
  entry "EE" 20 "F02F02F11F01" true;
  entry "ES" 24 "F04F04F01F01F10" true;
  entry "FI" 18 "F06F07F01" true;
  entry "FO" 18 "F04F09F01" true;
  entry "FR" 27 "F05F05A11F02" true;
  entry "GB" 22 "U04F06F08" true;
  entry "GE" 22 "U02F16" false;
  entry "GI" 23 "U04A15" true;
  entry "GL" 18 "F04F09F01" true;
  entry "GR" 27 "F03F04A16" true;
  entry "GT" 28 "A04A20" false;
  entry "HR" 21 "F07F10" false;
  entry "HU" 28 "F03F04F01F15F01" true;
  entry "IE" 22 "U04F06F08" true;
  entry "IL" 23 "F03F03F13" false;
  entry "IS" 26 "F04F02F06F10" true;
  entry "IT" 27 "U01F05F05A12" true;
  entry "JO" 30 "U04F04A18" false;
  entry "KW" 30 "U04A22" false;
  entry "KZ" 20 "F03A13" false;
  entry "LB" 28 "F04A20" false;
  entry "LC" 32 "U04A24" false;
  entry "LI" 21 "F05A12" true;
  entry "LT" 20 "F05F11" true;
  entry "LU" 20 "F03A13" true;
  entry "LV" 21 "U04A13" true;
  entry "MC" 27 "F05F05A11F02" true;
  entry "MD" 24 "A20" false;
  entry "ME" 22 "F03F13F02" false;
  entry "MK" 19 "F03A10F02" false;
  entry "MR" 27 "F05F05F11F02" false;
  entry "MT" 31 "U04F05A18" true;
  entry "MU" 30 "U04F02F02F12F03U03" false;
  entry "NL" 18 "U04F10" true;
  entry "NO" 15 "F04F06F01" true;
  entry "PK" 24 "U04A16" false;
  entry "PL" 28 "F08F16" true;
  entry "PS" 29 "U04A21" false;
  entry "PT" 25 "F04F04F11F02" true;
  entry "QA" 29 "U04A21" false;
  entry "RO" 24 "U04A16" true;
  entry "RS" 22 "F03F13F02" false;
  entry "SA" 24 "F02A18" false;
  entry "SC" 31 "U04F02F02F16U03" false;
  entry "SE" 24 "F03F16F01" true;
  entry "SI" 19 "F05F08F02" true;
  entry "SK" 24 "F04F06F10" true;
  entry "SM" 27 "U01F05F05A12" true;
  entry "ST" 25 "F08F11F02" false;
  entry "TL" 23 "F03F14F02" false;
  entry "TN" 24 "F02F03F13F02" false;
  entry "TR" 26 "F05A01A16" false;
  entry "UA" 29 "F06A19" false;
  entry "VG" 24 "U04F16" false;
  entry "XK" 20 "F04F10F02" false
].

(** [var countries = map[string]CountrySettings{...}]. *)
Definition countries : gmap gostring CountrySettings :=
  list_to_map countries_entries.

(** ** Package iban: the operations *)

Definition errCheckDigitsFailed : error :=
  str "IBAN check digits validation failed".
Definition errIncorrectCheckDigits : error :=
  str "IBAN has incorrect check digits".
Definition errBbanFormat : error :=
  str "bban part of IBAN is not formatted according to country specification".
Definition errNotAlphanumeric : error :=
  str "IBAN can contain only alphanumeric characters".
Definition errHeader : error :=
  str "IBAN must start with country code (2 characters) and check digits (2 digits)".

(** [fmt.Errorf("Failed to validate bban: %v", e.Error())]. *)
Definition errFailedBban (e : error) : error :=
  str "Failed to validate bban: " ++ e.

(** [fmt.Errorf("Unsupported country code %v", cc)]. *)
Definition errUnsupported (cc : gostring) : error :=
  str "Unsupported country code " ++ cc.

(** [fmt.Errorf("IBAN length %d does not match length %d specified for
    country code %v", n, l, cc)]. *)
Definition errLength (n l : Z) (cc : gostring) : error :=
  str "IBAN length " ++ strconv.Itoa n ++ str " does not match length "
  ++ strconv.Itoa l ++ str " specified for country code " ++ cc.

(** [(i *IBAN) PrintCode()]. *)
Definition PrintCode (i : IBAN) : gostring := printCode i.

(** The body of the loop of [validateCheckDigits]: what one rune adds to
    [mods]. *)
Definition expand (c : Z) : gostring :=
  let i := c in
  if (64 <? i) && (i <? 91)
  then strconv.Itoa (i - 55)
  else utf8.encode c.

(** The loop [for _, c := range iban] of [validateCheckDigits]: [mods] when
    it ends. *)
Definition expand_loop (iban : gostring) : gostring :=
  fold_left (fun mods c => mods ++ expand c) (utf8.range iban) [].

(** [(i *IBAN) validateCheckDigits()]. *)
Definition validateCheckDigits (i : IBAN) : outcome (option error) :=
  tail ← slice_from (code i) 4;
  head ← slice_to (code i) 4;
  let iban := tail ++ head in
  let mods := expand_loop iban in
  match big.SetString10 mods with
  | None => mret (Some errCheckDigitsFailed)
  | Some bigVal =>
    let resVal := big.Mod bigVal 97 in
    if negb (resVal =? 1)
    then mret (Some errIncorrectCheckDigits)
    else mret None
  end.

(** The [switch ps[:1]] of [validateBban]: what it appends to [bbr]; it has
    no default. *)
Definition class_text (tag : gostring) : list regexp.piece :=
  let d := ("0", "9")%char in
  let u := ("A", "Z")%char in
  let l := ("a", "z")%char in
  if decide (tag = str "F") then [regexp.Bracket [d]]
  else if decide (tag = str "L") then [regexp.Bracket [l]]
  else if decide (tag = str "U") then [regexp.Bracket [u]]
  else if decide (tag = str "A") then [regexp.Bracket [d; u; l]]
  else if decide (tag = str "B") then [regexp.Bracket [d; u]]
  else if decide (tag = str "C") then [regexp.Bracket [u; l]]
  else if decide (tag = str "W") then [regexp.Bracket [d; l]]
  else [].

(** The loop [for _, ps := range fps] of [validateBban]: the text of [bbr]
    when the loop ends, or the error it returns with. *)
Fixpoint bbr_loop (fps : list gostring) (bbr : list regexp.piece)
  : outcome (list regexp.piece * option error) :=
  match fps with
  | [] => mret (bbr, None)
  | ps :: fps' =>
    tag ← slice_to ps 1;
    let bbr := bbr ++ class_text tag in
    digits ← slice_from ps 1;
    let '(repeat, atoiErr) := strconv.Atoi digits in
    match atoiErr with
    | Some e => mret (bbr, Some (errFailedBban e))
    | None => bbr_loop fps' (bbr ++ [regexp.Count repeat])
    end
  end.

(** [(i *IBAN) validateBban()].  The pattern [[ABCFLUW]\d{2}] is a constant
    that compiles. *)
Definition validateBban (i : IBAN) : outcome (option error) :=
  let bban := bban i in
  cs ← deref (countrySettings i);
  let format := Format cs in
  let fps := regexp.FindAllString_frx format in
  '(bbr, err) ← bbr_loop fps [];
  match err with
  | Some e => mret (Some e)
  | None =>
    let '(bbrx, err) := regexp.Compile bbr in
    match err with
    | Some e => mret (Some (errFailedBban e))
    | None =>
      if negb (regexp.MatchString bbrx bban)
      then mret (Some errBbanFormat)
      else mret None
    end
  end.

(** [(i *IBAN) Validate()]: [errors.New] never returns nil. *)
Definition Validate (i : IBAN) : outcome (option error) :=
  err1 ← validateBban i;
  err2 ← validateCheckDigits i;
  let err := [] in
  let err := match err1 with Some e1 => err ++ e1 | None => err end in
  let err := match err2 with Some e2 => err ++ e2 | None => err end in
  mret (Some err).

(** The loop [for len(s) > 4 { prc += s[:4] + " "; s = s[4:] }] of [NewIBAN]:
    [prc] and [s] when it ends. *)
Equations? printLoop (prc s : gostring) : outcome (gostring * gostring)
  by wf (length s) lt :=
printLoop prc s with decide (4 < length s)%nat := {
  | right _ => Returned (prc, s)
  | left _ with inspect (slice_to s 4) := {
    | exist _ (Panicked p) _ => Panicked p
    | exist _ (Returned group) _ with inspect (slice_from s 4) := {
      | exist _ (Panicked p) _ => Panicked p
      | exist _ (Returned s') Hs' => printLoop (prc ++ group ++ str " ") s' } } }.
Proof.
  unfold slice_from, slice in Hs'. case_decide; [|discriminate].
  injection Hs' as <-. rewrite length_take, length_drop. lia.
Qed.

Section NewIBAN.

(** [unicode.ToUpper], which [strings.ToUpper] applies to the runes of a
    string that is not pure ASCII. *)
Variable unicode_ToUpper : Z -> Z.

(** [NewIBAN].  The patterns [^[0-9A-Z]*$] and [^\D\D\d\d] are constants
    that compile. *)
Definition NewIBAN (s : gostring) : outcome (option IBAN * option error) :=
  let s := strings.ToUpper unicode_ToUpper (strings.RemoveSpaces s) in
  if negb (regexp.MatchString_gate s)
  then mret (None, Some errNotAlphanumeric)
  else
  let hs := regexp.FindString_header s in
  if decide (hs = []) then mret (None, Some errHeader)
  else
  cc ← slice hs 0 2;
  cd ← slice hs 2 4;
  match countries !! cc with
  | None => mret (None, Some (errUnsupported cc))
  | Some cs =>
    if negb (len s =? Length cs)
    then mret (None, Some (errLength (len s) (Length cs) cc))
    else
    bb ← slice_from s 4;
    let iban := {| code := s; printCode := []; countryCode := cc;
                   checkDigits := cd; countrySettings := Some cs;
                   bban := bb |} in
    err ← validateBban iban;
    match err with
    | Some e => mret (None, Some e)
    | None =>
      err ← validateCheckDigits iban;
      match err with
      | Some e => mret (None, Some e)
      | None =>
        '(prc, rest) ← printLoop [] s;
        mret (Some {| code := s; printCode := prc ++ rest;
                      countryCode := cc; checkDigits := cd;
                      countrySettings := Some cs; bban := bb |}, None)
      end
    end
  end.

End NewIBAN.


(** ** The specification's notions *)

(** *** The mod-97 numeral (specification, 4.3 step 7) *)

(** [rearranged = code[4:] + code[0:4]]. *)
Definition spec_rearranged (code : gostring) : gostring :=
  drop 4 code ++ take 4 code.

(** The decimal digits a character stands for: a letter [L] is replaced by
    the two digits of [codepoint(L) - 55], a digit stays. *)
Definition spec_digits_of (c : ascii) : list Z :=
  if between 65 90 (byte_val c)
  then [(byte_val c - 55) / 10; (byte_val c - 55) mod 10]
  else [byte_val c - 48].

(** The number a sequence of decimal digits denotes. *)
Definition spec_value (ds : list Z) : Z :=
  fold_left (fun acc d => 10 * acc + d) ds 0.

(** The number denoted by the rearranged, letter-expanded code. *)
Definition spec_numeral (code : gostring) : Z :=
  spec_value (flat_map spec_digits_of (spec_rearranged code)).

(** *** Layouts (specification, 3 and 4.2) *)

Inductive spec_class : Type :=
| digit | lower_letter | upper_letter | alphanumeric
| upper_alphanumeric | letter | lower_alphanumeric.

(** The table of tags. *)
Definition spec_class_of_tag (t : ascii) : option spec_class :=
  if Ascii.eqb t "F" then Some digit
  else if Ascii.eqb t "L" then Some lower_letter
  else if Ascii.eqb t "U" then Some upper_letter
  else if Ascii.eqb t "A" then Some alphanumeric
  else if Ascii.eqb t "B" then Some upper_alphanumeric
  else if Ascii.eqb t "C" then Some letter
  else if Ascii.eqb t "W" then Some lower_alphanumeric
  else None.

(** The character class of each tag. *)
Definition spec_in_class (k : spec_class) (c : ascii) : bool :=
  let d := between 48 57 (byte_val c) in
  let u := between 65 90 (byte_val c) in
  let l := between 97 122 (byte_val c) in
  match k with
  | digit => d
  | lower_letter => l
  | upper_letter => u
  | alphanumeric => d || u || l
  | upper_alphanumeric => d || u
  | letter => u || l
  | lower_alphanumeric => d || l
  end.

(** The descriptor grammar: a concatenation of tokens, each a tag followed by
    a 2-digit decimal repeat count.  [None] for a descriptor with an unknown
    tag or with something else than two digits where a count is expected. *)
Fixpoint spec_layout (format : gostring) : option (list (spec_class * nat)) :=
  match format with
  | [] => Some []
  | t :: d1 :: d2 :: rest =>
    match spec_class_of_tag t with
    | Some k =>
      if is_digit d1 && is_digit d2
      then cons (k, Z.to_nat (10 * digit_val d1 + digit_val d2))
             <$> spec_layout rest
      else None
    | None => None
    end
  | _ => None
  end.

(** The candidate is exactly the concatenation, in order, of [repeat_count]
    characters of each token's class. *)
Definition spec_exact (layout : list (spec_class * nat)) (cand : gostring)
  : Prop :=
  exists segments : list gostring,
    cand = concat segments /\
    Forall2 (fun '(k, n) seg =>
               length seg = n /\ forallb (spec_in_class k) seg = true)
            layout segments.

(** The sum of the repeat counts of a layout. *)
Definition spec_count_sum (layout : list (spec_class * nat)) : Z :=
  Z.of_nat (sum_list (map snd layout)).

(** *** The display form (specification, 4.3 step 8) *)

(** The code sliced greedily into groups of 4 characters joined by single
    spaces; the last group has 1 to 4 characters. *)
Fixpoint spec_display (s : gostring) : gostring :=
  match s with
  | a :: b :: c :: d :: rest =>
    match rest with
    | [] => s
    | _ :: _ => a :: b :: c :: d :: " "%char :: spec_display rest
    end
  | _ => s
  end.

(** ** The tokens of a descriptor, as [validateBban] reads them *)

(** The shape of a match of [[ABCFLUW]\d{2}]. *)
Definition is_token (ps : gostring) : bool :=
  match ps with
  | [t; d1; d2] => regexp.is_tag t && is_digit d1 && is_digit d2
  | _ => false
  end.

(** The value of the two digits of a token. *)
Definition token_count (ps : gostring) : Z :=
  match ps with
  | [_; d1; d2] => 10 * digit_val d1 + digit_val d2
  | _ => 0
  end.

(** What one iteration of the loop appends to [bbr] for a token. *)
Definition token_pieces (ps : gostring) : list regexp.piece :=
  class_text (take 1 ps) ++ [regexp.Count (token_count ps)].

(** The class a token's tag selects. *)
Definition token_atom (ps : gostring) : regexp.atom :=
  match class_text (take 1 ps) with
  | [regexp.Bracket rs] => regexp.AClass rs
  | _ => regexp.AClass []
  end.

(** The part of the compiled pattern that comes from a token. *)
Definition token_node (ps : gostring) : regexp.atom * nat :=
  (token_atom ps, Z.to_nat (token_count ps)).

(** The pattern [validateBban] compiles for a descriptor. *)
Definition compiled (format : gostring) : regexp.prog :=
  map token_node (regexp.FindAllString_frx format).

(** The segments [segs] are, in order, as many bytes of each node's class as
    the node asks for. *)
Definition prog_exact (p : regexp.prog) (segs : list gostring) : Prop :=
  Forall2 (fun '(a, n) seg =>
             length seg = n /\ forallb (regexp.atom_matches a) seg = true)
          p segs.

(** A compiled node and a token of the specification's layout agree: same
    count, same characters accepted. *)
Definition node_agrees (node : regexp.atom * nat) (tok : spec_class * nat)
  : Prop :=
  snd node = snd tok
  /\ forall c, regexp.atom_matches (fst node) c = spec_in_class (fst tok) c.

(** The check of one table entry: its descriptor follows the grammar and its
    counts add up to the length without the four header characters. *)
Definition entry_consistent (cs : CountrySettings) : bool :=
  match spec_layout (Format cs) with
  | Some layout => spec_count_sum layout =? Length cs - 4
  | None => false
  end.

(** ** What [NewIBAN] makes of its input *)

(** The string [NewIBAN] works on: spaces removed, then upper case. *)
Definition normalized (unicode_ToUpper : Z -> Z) (s : gostring) : gostring :=
  strings.ToUpper unicode_ToUpper (strings.RemoveSpaces s).

(** The value with every field set from the code [s] and the settings [cs]. *)
Definition built (s : gostring) (cs : CountrySettings) : IBAN := {|
  code := s;
  printCode := spec_display s;
  countryCode := take 2 s;
  checkDigits := take 2 (drop 2 s);
  countrySettings := Some cs;
  bban := drop 4 s
|}.

(** ** The steps of [NewIBAN], as conditions on the normalized string *)

(** The shape [^\D\D\d\d] on a string of [[0-9A-Z]]: four characters at
    least, the first two not digits, the next two digits. *)
Definition header_ok (n : gostring) : bool :=
  match n with
  | c0 :: c1 :: c2 :: c3 :: _ =>
    negb (is_digit c0) && negb (is_digit c1) && is_digit c2 && is_digit c3
  | _ => false
  end.

(** The checks of [NewIBAN] in their order, each with what [NewIBAN] returns
    when it is the first to fail. *)
Definition NewIBAN_steps (n : gostring) : outcome (option IBAN * option error) :=
  if negb (regexp.MatchString_gate n)
  then Returned (None, Some errNotAlphanumeric)
  else if negb (header_ok n)
  then Returned (None, Some errHeader)
  else match countries !! take 2 n with
  | None => Returned (None, Some (errUnsupported (take 2 n)))
  | Some cs =>
    if negb (len n =? Length cs)
    then Returned (None, Some (errLength (len n) (Length cs) (take 2 n)))
    else if negb (regexp.MatchString (compiled (Format cs)) (drop 4 n))
    then Returned (None, Some errBbanFormat)
    else if negb (spec_numeral n mod 97 =? 1)
    then Returned (None, Some errIncorrectCheckDigits)
    else Returned (Some (built n cs), None)
  end.

(** The check of the key and length of one table entry: two upper-case
    letters, and a length from 15 to 32. *)
Definition entry_key_and_length (e : gostring * CountrySettings) : bool :=
  match fst e with
  | [c0; c1] =>
    spec_in_class upper_letter c0 && spec_in_class upper_letter c1
  | _ => false
  end
  && (15 <=? Length (snd e)) && (Length (snd e) <=? 32).

(** ** Descriptors the model of the regexp engine covers *)

(** A bound on the bytes of a descriptor.  A descriptor of up to 1000 bytes
    has at most 333 tokens of at most 99 repetitions each, a pattern a
    hundred times below what the engine refuses for its size; the
    descriptors of the table have at most 18 bytes. *)
Definition max_descriptor : nat := 1000.

(** What [validateBban] keeps of a descriptor: the tokens it finds, one after
    the other. *)
Definition kept (format : gostring) : gostring :=
  concat (regexp.FindAllString_frx format).

(** ** Sample values *)

(** The value [NewIBAN] builds for [GB82 WEST 1234 5698 7654 32]. *)
Definition iban_GB82 : IBAN := {|
  code := str "GB82WEST12345698765432";
  printCode := str "GB82 WEST 1234 5698 7654 32";
  countryCode := str "GB";
  checkDigits := str "82";
  countrySettings :=
    Some {| Length := 22; Format := str "U04F06F08"; Sepa := true |};
  bban := str "WEST12345698765432"
|}.

(** A value with the settings of [GB] whose [bban] has one character more
    than the layout [U04F06F08] describes. *)
Definition iban_GB_long : IBAN := {|
  code := str "GB82WEST123456987654321";
  printCode := [];
  countryCode := str "GB";
  checkDigits := str "82";
  countrySettings :=
    Some {| Length := 22; Format := str "U04F06F08"; Sepa := true |};
  bban := str "WEST123456987654321"
|}.



(** The zero value [IBAN{}]. *)
Definition iban_zero : IBAN := {|
  code := []; printCode := []; countryCode := []; checkDigits := [];
  countrySettings := None; bban := []
|}.

(** A value with settings and a code of three characters. *)
Definition iban_short : IBAN := {|
  code := str "GB8"; printCode := []; countryCode := []; checkDigits := [];
  countrySettings :=
    Some {| Length := 22; Format := str "U04F06F08"; Sepa := true |};
  bban := []
|}.

(** The value [iban_GB82] with its last digit changed. *)
Definition iban_GB82_altered : IBAN := {|
  code := str "GB82WEST12345698765433";
  printCode := str "GB82 WEST 1234 5698 7654 33";
  countryCode := str "GB";
  checkDigits := str "82";
  countrySettings :=
    Some {| Length := 22; Format := str "U04F06F08"; Sepa := true |};
  bban := str "WEST12345698765433"
|}.

(** The value [iban_GB82] with its last two digits exchanged. *)
Definition iban_GB82_swapped : IBAN := {|
  code := str "GB82WEST12345698765423";
  printCode := str "GB82 WEST 1234 5698 7654 23";
  countryCode := str "GB";
  checkDigits := str "82";
  countrySettings :=
    Some {| Length := 22; Format := str "U04F06F08"; Sepa := true |};
  bban := str "WEST12345698765423"
|}.

(** The value [iban_GB82] with its code in lower case. *)
Definition iban_GB82_lower : IBAN := {|
  code := str "gb82west12345698765432";
  printCode := [];
  countryCode := str "GB";
  checkDigits := str "82";
  countrySettings :=
    Some {| Length := 22; Format := str "U04F06F08"; Sepa := true |};
  bban := str "WEST12345698765432"
|}.

(** The value [iban_GB82] with a plus sign after the check digits. *)
Definition iban_GB82_plus : IBAN := {|
  code := str "GB82+WEST12345698765432";
  printCode := [];
  countryCode := str "GB";
  checkDigits := str "82";
  countrySettings :=
    Some {| Length := 22; Format := str "U04F06F08"; Sepa := true |};
  bban := str "WEST12345698765432"
|}.

(** ** Bytes, runes and slices *)

(** Case analysis on the 256 values of a byte. *)
Ltac each_byte c := destruct c as [[] [] [] [] [] [] [] []].

Lemma ascii_byte_decodes (c : ascii) (t : gostring) :
  (byte_val c <? 128) = true ->
  utf8.DecodeRuneInString (c :: t) = (byte_val c, 1%nat).
Proof. intros H. unfold utf8.DecodeRuneInString. now rewrite H. Qed.

Lemma range_of_ascii (s : gostring) :
  strings.isASCII s = true -> utf8.range s = map byte_val s.
Proof.
  unfold utf8.range, strings.isASCII.
  induction s as [|c t IH]; intros H; [reflexivity|].
  apply andb_prop in H as [Hc Ht].
  change (utf8.range_from 0 (c :: t))
    with (let '(r, w) := utf8.DecodeRuneInString (c :: t) in
          r :: utf8.range_from (w - 1) t).
  rewrite (ascii_byte_decodes c t Hc). cbn. now rewrite IH.
Qed.

Lemma upper_alnum_is_ascii (c : ascii) :
  regexp.is_upper_alnum c = true -> (byte_val c <? 128) = true.
Proof. each_byte c; intros H; try discriminate H; reflexivity. Qed.

Lemma gate_isASCII (s : gostring) :
  regexp.MatchString_gate s = true -> strings.isASCII s = true.
Proof.
  unfold regexp.MatchString_gate, strings.isASCII.
  induction s as [|c t IH]; cbn; [easy|].
  intros [Hc Ht]%andb_prop. now rewrite (upper_alnum_is_ascii c Hc), IH.
Qed.

Lemma gate_app (s t : gostring) :
  regexp.MatchString_gate (s ++ t)
  = regexp.MatchString_gate s && regexp.MatchString_gate t.
Proof. apply forallb_app. Qed.

Lemma gate_take_drop (n : nat) (s : gostring) :
  regexp.MatchString_gate s = true ->
  regexp.MatchString_gate (take n s) = true
  /\ regexp.MatchString_gate (drop n s) = true.
Proof.
  intros H. rewrite <- (take_drop n s), gate_app in H.
  now apply andb_prop in H.
Qed.

Lemma slice_from_ok (s : gostring) (n : nat) :
  (n <= length s)%nat -> slice_from s n = Returned (drop n s).
Proof.
  intros H. unfold slice_from, slice. rewrite decide_True by lia.
  f_equal. apply take_ge. rewrite length_drop. lia.
Qed.

Lemma slice_to_ok (s : gostring) (n : nat) :
  (n <= length s)%nat -> slice_to s n = Returned (take n s).
Proof.
  intros H. unfold slice_to, slice. rewrite decide_True by lia.
  now rewrite Nat.sub_0_r.
Qed.

(** ** The check digits *)

Lemma expand_loop_flat_map (iban : gostring) :
  expand_loop iban = flat_map expand (utf8.range iban).
Proof.
  unfold expand_loop. generalize (utf8.range iban) as rs.
  enough (forall rs acc,
    fold_left (fun mods c => mods ++ expand c) rs acc
    = acc ++ flat_map expand rs) as H by (intros rs; apply (H rs [])).
  induction rs as [|r rs IH]; intros acc; cbn.
  - now rewrite app_nil_r.
  - now rewrite IH, <- app_assoc.
Qed.

(** What the loop writes for a character of [[0-9A-Z]] is made of decimal
    digits, and they are the digits the specification gives it. *)
Lemma expand_upper_alnum (c : ascii) :
  regexp.is_upper_alnum c = true ->
  forallb is_digit (expand (byte_val c)) = true
  /\ map digit_val (expand (byte_val c)) = spec_digits_of c
  /\ expand (byte_val c) <> [].
Proof.
  each_byte c; intros H; try discriminate H; vm_compute; repeat split; discriminate.
Qed.

Lemma expand_loop_upper_alnum (s : gostring) :
  regexp.MatchString_gate s = true ->
  forallb is_digit (expand_loop s) = true
  /\ map digit_val (expand_loop s) = flat_map spec_digits_of s.
Proof.
  intros H. rewrite expand_loop_flat_map, (range_of_ascii s (gate_isASCII s H)).
  unfold regexp.MatchString_gate in H.
  induction s as [|c t IH]; cbn; [easy|].
  cbn in H. apply andb_prop in H as [Hc Ht].
  destruct (expand_upper_alnum c Hc) as (Hd & Hv & _), (IH Ht) as [IHd IHv].
  rewrite forallb_app, map_app, Hd, Hv, IHd, IHv. easy.
Qed.

Lemma scan_digits_all (s : gostring) (acc : Z) :
  forallb is_digit s = true ->
  scan_digits acc s
  = Some (fold_left (fun a d => 10 * a + d) (map digit_val s) acc).
Proof.
  revert acc. induction s as [|c t IH]; intros acc H; cbn; [reflexivity|].
  cbn in H. apply andb_prop in H as [Hc Ht]. rewrite Hc, (IH _ Ht).
  now rewrite (Z.mul_comm acc 10).
Qed.

Lemma scan_digits_fails (s : gostring) (acc : Z) :
  forallb is_digit s = false -> scan_digits acc s = None.
Proof.
  revert acc. induction s as [|c t IH]; intros acc H; cbn in *; [discriminate|].
  destruct (is_digit c); [now apply IH|reflexivity].
Qed.

Lemma scan_sign_digit (c : ascii) (t : gostring) :
  is_digit c = true -> scan_sign (c :: t) = (false, c :: t).
Proof. each_byte c; intros H; try discriminate H; reflexivity. Qed.

(** A non-empty run of digits is a numeral, and denotes what its digits say. *)
Lemma scan_decimal_digits (s : gostring) :
  s <> [] -> forallb is_digit s = true ->
  scan_decimal s = Some (spec_value (map digit_val s)).
Proof.
  intros Hne Hd. destruct s as [|c t]; [easy|].
  unfold scan_decimal. pose proof Hd as Hd'. cbn in Hd'.
  apply andb_prop in Hd' as [Hc _]. rewrite (scan_sign_digit c t Hc).
  now rewrite (scan_digits_all _ 0 Hd).
Qed.

(** On a code of [[0-9A-Z]] with its four header characters, the numeral the
    function builds is the specification's and big.Int reads it. *)
Lemma SetString_expand_loop (c : gostring) :
  (4 <= length c)%nat -> regexp.MatchString_gate c = true ->
  big.SetString10 (expand_loop (drop 4 c ++ take 4 c)) = Some (spec_numeral c).
Proof.
  intros Hlen Hgate.
  destruct (gate_take_drop 4 c Hgate) as [Ht Hd].
  assert (Hg : regexp.MatchString_gate (drop 4 c ++ take 4 c) = true)
    by now rewrite gate_app, Ht, Hd.
  destruct (expand_loop_upper_alnum _ Hg) as [Hdig Hval].
  unfold big.SetString10. rewrite scan_decimal_digits; [|..|exact Hdig].
  - unfold spec_numeral, spec_rearranged. now rewrite Hval.
  - intros Hnil. apply (f_equal (map digit_val)) in Hnil.
    rewrite Hval in Hnil.
    destruct c as [|c0 [|c1 [|c2 [|c3 c']]]]; cbn in Hlen; try lia.
    apply (f_equal (@length Z)) in Hnil.
    rewrite flat_map_app, length_app in Hnil. cbn in Hnil.
    unfold spec_digits_of in Hnil.
    destruct (between 65 90 (byte_val c0)); cbn in Hnil; lia.
Qed.

Lemma validateCheckDigits_unfold (i : IBAN) :
  (4 <= length (code i))%nat ->
  validateCheckDigits i =
  match big.SetString10 (expand_loop (drop 4 (code i) ++ take 4 (code i))) with
  | None => Returned (Some errCheckDigitsFailed)
  | Some bigVal =>
    if negb (big.Mod bigVal 97 =? 1)
    then Returned (Some errIncorrectCheckDigits)
    else Returned None
  end.
Proof.
  intros H. unfold validateCheckDigits.
  rewrite (slice_from_ok _ 4 H), (slice_to_ok _ 4 H). reflexivity.
Qed.

(** C2.  For a code of at least 4 characters, all in [[0-9A-Z]],
    [validateCheckDigits] succeeds exactly when the numeral obtained by
    moving the first 4 characters to the end and replacing each letter by
    the two digits of its code point minus 55 leaves remainder 1 modulo 97;
    with any other remainder it reports incorrect check digits. *)
Theorem validateCheckDigits_mod97 (i : IBAN) :
  (4 <= length (code i))%nat ->
  regexp.MatchString_gate (code i) = true ->
  (validateCheckDigits i = Returned None <-> spec_numeral (code i) mod 97 = 1)
  /\ (spec_numeral (code i) mod 97 <> 1 ->
      validateCheckDigits i = Returned (Some errIncorrectCheckDigits)).
Proof.
  intros Hlen Hgate.
  rewrite (validateCheckDigits_unfold i Hlen),
    (SetString_expand_loop _ Hlen Hgate).
  unfold big.Mod.
  destruct (Z.eqb_spec (spec_numeral (code i) mod 97) 1) as [E|E]; cbn.
  - split; [tauto|]. intros H. now destruct H.
  - split; [|reflexivity]. split; [discriminate|]. intros H. now destruct E.
Qed.

(** The statement at the code [GB82WEST12345698765432]. *)
Lemma validateCheckDigits_mod97_witness :
  (4 <= length (code iban_GB82))%nat
  /\ regexp.MatchString_gate (code iban_GB82) = true
  /\ (validateCheckDigits iban_GB82 = Returned None
      <-> spec_numeral (code iban_GB82) mod 97 = 1).
Proof.
  assert (Hlen : (4 <= length (code iban_GB82))%nat) by (cbn; lia).
  assert (Hgate : regexp.MatchString_gate (code iban_GB82) = true)
    by reflexivity.
  split; [exact Hlen|]. split; [exact Hgate|].
  exact (proj1 (validateCheckDigits_mod97 iban_GB82 Hlen Hgate)).
Defined.

(** C9.  For a code of at least 4 characters the function returns and does
    not panic, and if big.Int cannot read the expanded numeral what it
    returns is the error of that branch.  When moreover the characters are
    all in [[0-9A-Z]], big.Int does read the numeral, so that branch is not
    taken. *)
Theorem validateCheckDigits_numeral_parses (i : IBAN) :
  (4 <= length (code i))%nat ->
  let mods := expand_loop (drop 4 (code i) ++ take 4 (code i)) in
  (exists r, validateCheckDigits i = Returned r
     /\ (big.SetString10 mods = None -> r = Some errCheckDigitsFailed))
  /\ (regexp.MatchString_gate (code i) = true ->
      (exists v, big.SetString10 mods = Some v)
      /\ validateCheckDigits i <> Returned (Some errCheckDigitsFailed)).
Proof.
  intros Hlen mods. rewrite (validateCheckDigits_unfold i Hlen). fold mods.
  split.
  - destruct (big.SetString10 mods) as [v|]; [|eauto].
    destruct (negb _); eexists; (split; [reflexivity|discriminate]).
  - intros Hgate. subst mods. rewrite (SetString_expand_loop _ Hlen Hgate).
    split; [eauto|]. destruct (negb _); discriminate.
Qed.

(** The statement at the code [GB82WEST12345698765432]. *)
Lemma validateCheckDigits_numeral_parses_witness :
  (4 <= length (code iban_GB82))%nat
  /\ regexp.MatchString_gate (code iban_GB82) = true
  /\ validateCheckDigits iban_GB82 <> Returned (Some errCheckDigitsFailed).
Proof.
  assert (Hlen : (4 <= length (code iban_GB82))%nat) by (cbn; lia).
  split; [exact Hlen|]. split; [reflexivity|].
  exact (proj2 (proj2 (validateCheckDigits_numeral_parses iban_GB82 Hlen)
                      eq_refl)).
Defined.

(** ** The structure of the BBAN *)

(** Induction along the scan of [FindAllString_frx]: past a token, or past
    one byte. *)
Lemma frx_ind (P : gostring -> Prop) :
  P [] -> (forall t, P [t]) -> (forall t d, P [t; d]) ->
  (forall t d1 d2 rest,
     P rest -> P (d1 :: d2 :: rest) -> P (t :: d1 :: d2 :: rest)) ->
  forall s, P s.
Proof.
  intros H0 H1 H2 H3 s.
  enough (forall n s, (length s <= n)%nat -> P s) as H by (apply (H (length s)); lia).
  clear s. induction n as [|n IH]; intros s Hs.
  - destruct s; [exact H0|cbn in Hs; lia].
  - destruct s as [|t [|d1 [|d2 rest]]]; auto.
    apply H3; apply IH; cbn in *; lia.
Qed.

Lemma FindAllString_frx_tokens (s : gostring) :
  Forall (fun ps => is_token ps = true) (regexp.FindAllString_frx s).
Proof.
  induction s as [| | |t d1 d2 rest IH1 IH2] using frx_ind; try (cbn; constructor).
  change (regexp.FindAllString_frx (t :: d1 :: d2 :: rest))
    with (if regexp.is_tag t && is_digit d1 && is_digit d2
          then [t; d1; d2] :: regexp.FindAllString_frx rest
          else regexp.FindAllString_frx (d1 :: d2 :: rest)).
  destruct (regexp.is_tag t && is_digit d1 && is_digit d2) eqn:E; [|exact IH2].
  constructor; [exact E|exact IH1].
Qed.

Lemma is_digit_val (c : ascii) :
  is_digit c = true -> 0 <= digit_val c <= 9.
Proof. unfold is_digit, digit_val, between. lia. Qed.

Lemma Atoi_two_digits (d1 d2 : ascii) :
  is_digit d1 = true -> is_digit d2 = true ->
  strconv.Atoi [d1; d2] = (10 * digit_val d1 + digit_val d2, None).
Proof.
  intros H1 H2. unfold strconv.Atoi.
  rewrite scan_decimal_digits by (cbn; rewrite ?H1, ?H2; easy).
  apply is_digit_val in H1, H2. cbn -[Z.mul Z.add Z.ltb strconv.minInt strconv.maxInt].
  replace (10 * (10 * 0 + digit_val d1) + digit_val d2)
    with (10 * digit_val d1 + digit_val d2) by lia.
  assert (Hmin : strconv.minInt < 0) by reflexivity.
  assert (Hmax : 99 < strconv.maxInt) by reflexivity.
  destruct (Z.ltb_spec (10 * digit_val d1 + digit_val d2) strconv.minInt); [lia|].
  destruct (Z.ltb_spec strconv.maxInt (10 * digit_val d1 + digit_val d2)); [lia|].
  reflexivity.
Qed.

Lemma token_inv (ps : gostring) :
  is_token ps = true ->
  exists t d1 d2, ps = [t; d1; d2] /\ regexp.is_tag t = true
                  /\ is_digit d1 = true /\ is_digit d2 = true.
Proof.
  destruct ps as [|t [|d1 [|d2 [|]]]]; try discriminate. cbn.
  intros [[Ht H1]%andb_prop H2]%andb_prop. eauto 8.
Qed.

Lemma token_count_range (ps : gostring) :
  is_token ps = true -> 0 <= token_count ps <= 99.
Proof.
  intros (t & d1 & d2 & -> & _ & H1%is_digit_val & H2%is_digit_val)%token_inv.
  cbn -[Z.mul]. lia.
Qed.

(** The loop neither panics nor leaves early: matches of the token pattern
    have a tag to slice off and two digits for [Atoi]. *)
Lemma bbr_loop_tokens (fps : list gostring) (bbr : list regexp.piece) :
  Forall (fun ps => is_token ps = true) fps ->
  bbr_loop fps bbr = Returned (bbr ++ flat_map token_pieces fps, None).
Proof.
  intros H. revert bbr. induction H as [|ps fps Hps _ IH]; intros bbr.
  - cbn. now rewrite app_nil_r.
  - destruct (token_inv ps Hps) as (t & d1 & d2 & -> & _ & H1 & H2).
    cbn [bbr_loop]. change (slice_to [t; d1; d2] 1) with (Returned [t]).
    change (slice_from [t; d1; d2] 1) with (Returned [d1; d2]).
    cbn [mbind outcome_bind]. rewrite (Atoi_two_digits d1 d2 H1 H2), IH.
    cbn [flat_map]. unfold token_pieces at 2. cbn [take token_count].
    now rewrite <- !app_assoc.
Qed.

Lemma class_text_of_tag (t : ascii) :
  regexp.is_tag t = true ->
  class_text [t] = [regexp.Bracket
                      match token_atom [t] with
                      | regexp.AClass rs => rs
                      | regexp.AChar _ => []
                      end].
Proof. each_byte t; intros H; try discriminate H; reflexivity. Qed.

Lemma token_atom_tag (t d1 d2 : ascii) :
  token_atom [t; d1; d2] = token_atom [t].
Proof. reflexivity. Qed.

Lemma token_atom_class (ps : gostring) :
  exists rs, token_atom ps = regexp.AClass rs.
Proof. unfold token_atom. destruct (class_text _) as [|[] []]; eauto. Qed.

(** The text the loop assembles compiles, to one repeated class per token
    (the engine's limit on the size of a pattern apart, see [regexp.parse]). *)
Lemma parse_tokens (fps : list gostring) :
  Forall (fun ps => is_token ps = true) fps ->
  forall stack b,
    regexp.parse stack b (flat_map token_pieces fps)
    = (rev stack ++ map token_node fps, None).
Proof.
  induction 1 as [|ps fps Hps _ IH]; intros stack b.
  - cbn. now rewrite app_nil_r.
  - pose proof (token_count_range ps Hps) as Hn.
    destruct (token_inv ps Hps) as (t & d1 & d2 & -> & Ht & _ & _).
    cbn [flat_map]. unfold token_pieces at 1. cbn [take].
    rewrite (class_text_of_tag t Ht). cbn [app regexp.parse].
    destruct (Z.ltb_spec (token_count [t; d1; d2]) 0); [lia|].
    destruct (Z.ltb_spec 1000 (token_count [t; d1; d2])); [lia|].
    rewrite IH. cbn [rev map]. rewrite <- app_assoc. cbn [app].
    unfold token_node. rewrite token_atom_tag.
    destruct (token_atom_class [t]) as [rs ->]. reflexivity.
Qed.

(** [validateBban] on a value with country settings: it returns, and what it
    returns is decided by the match of the compiled tokens alone (for the
    descriptors whose pattern the engine does not refuse for its size, see
    [regexp.parse]). *)
Lemma validateBban_unfold (i : IBAN) (cs : CountrySettings) :
  countrySettings i = Some cs ->
  validateBban i =
  Returned (if regexp.MatchString (compiled (Format cs)) (bban i)
            then None else Some errBbanFormat).
Proof.
  intros Hcs. unfold validateBban. rewrite Hcs. cbn [deref mbind outcome_bind].
  pose proof (FindAllString_frx_tokens (Format cs)) as Htok.
  rewrite (bbr_loop_tokens _ [] Htok). cbn [app mbind outcome_bind].
  unfold regexp.Compile. rewrite (parse_tokens _ Htok). cbn [rev app].
  fold (compiled (Format cs)).
  now destruct (regexp.MatchString _ _).
Qed.

(** *** What a match of the compiled pattern is *)

Lemma consume_spec (a : regexp.atom) (n : nat) (s rest : gostring) :
  regexp.consume a n s = Some rest <->
  exists seg, s = seg ++ rest /\ length seg = n
              /\ forallb (regexp.atom_matches a) seg = true.
Proof.
  revert s. induction n as [|n IH]; intros s; cbn.
  - split.
    + intros [= ->]. now exists [].
    + intros ([|] & -> & Hl & _); [reflexivity|discriminate Hl].
  - destruct s as [|c t].
    + split; [discriminate|]. intros ([|] & He & Hl & _); discriminate.
    + destruct (regexp.atom_matches a c) eqn:Hc.
      * rewrite IH. split.
        -- intros (seg & -> & <- & Hseg). exists (c :: seg). cbn.
           now rewrite Hc, Hseg.
        -- intros ([|c' seg] & He & Hl & Hseg); [discriminate Hl|].
           injection He as <- ->. injection Hl as <-. cbn in Hseg.
           rewrite Hc in Hseg. eauto.
      * split; [discriminate|].
        intros ([|c' seg] & He & Hl & Hseg); [discriminate Hl|].
        injection He as <- ->. cbn in Hseg. now rewrite Hc in Hseg.
Qed.

Lemma prog_exact_cons (a : regexp.atom) (n : nat) (p : regexp.prog)
    (segs : list gostring) :
  prog_exact ((a, n) :: p) segs <->
  exists seg segs', segs = seg :: segs' /\ length seg = n
    /\ forallb (regexp.atom_matches a) seg = true /\ prog_exact p segs'.
Proof.
  unfold prog_exact. split.
  - intros (seg & segs' & [Hl Hs] & Hp & ->)%Forall2_cons_inv_l. eauto 6.
  - intros (seg & segs' & -> & Hl & Hs & Hp). now constructor.
Qed.

Lemma match_here_spec (p : regexp.prog) (s : gostring) :
  regexp.match_here p s = true <->
  exists segs post, s = concat segs ++ post /\ prog_exact p segs.
Proof.
  revert s. induction p as [|[a n] p IH]; intros s; cbn.
  - split; [|reflexivity]. intros _. exists [], s. split; [reflexivity|constructor].
  - destruct (regexp.consume a n s) as [rest|] eqn:E.
    + apply consume_spec in E as (seg & -> & Hl & Hseg). rewrite IH. split.
      * intros (segs & post & -> & Hp). exists (seg :: segs), post.
        cbn. rewrite <- app_assoc. split; [reflexivity|].
        apply prog_exact_cons. eauto 6.
      * intros (segs & post & He & Hp).
        apply prog_exact_cons in Hp as (seg' & segs' & -> & Hl' & Hseg' & Hp').
        cbn in He. rewrite <- app_assoc in He.
        apply app_inj_1 in He as [-> ->]; [eauto|congruence].
    + split; [discriminate|]. intros (segs & post & He & Hp).
      apply prog_exact_cons in Hp as (seg' & segs' & -> & Hl' & Hseg' & Hp').
      cbn in He. rewrite <- app_assoc in He.
      assert (regexp.consume a n s = Some (concat segs' ++ post)) as E'
        by (apply consume_spec; eauto).
      congruence.
Qed.

(** The pattern has no anchor: it matches when it matches at some position. *)
Lemma MatchString_spec (p : regexp.prog) (s : gostring) :
  regexp.MatchString p s = true <->
  exists pre post, s = pre ++ post /\ regexp.match_here p post = true.
Proof.
  induction s as [|c t IH]; cbn.
  - rewrite orb_false_r. split.
    + intros H. now exists [], [].
    + intros ([|] & post & He & H); [|discriminate]. cbn in He. now subst.
  - rewrite orb_true_iff, IH. split.
    + intros [H|(pre & post & -> & H)].
      * now exists [], (c :: t).
      * now exists (c :: pre), post.
    + intros ([|c' pre] & post & He & H); cbn in He.
      * left. now subst.
      * injection He as <- ->. right. eauto.
Qed.

(** *** The compiled pattern and the specification's layout *)

Lemma tag_class_agrees (t d1 d2 : ascii) (k : spec_class) :
  spec_class_of_tag t = Some k ->
  regexp.is_tag t = true
  /\ forall c, regexp.atom_matches (token_atom [t; d1; d2]) c = spec_in_class k c.
Proof.
  rewrite token_atom_tag.
  each_byte t; intros H; try discriminate H; injection H as <-;
    (split; [reflexivity|]); intros c; each_byte c; reflexivity.
Qed.

(** On a descriptor of the grammar, the tokens the code finds are the tokens
    of the layout. *)
Lemma compiled_layout (format : gostring) :
  forall layout, spec_layout format = Some layout ->
  Forall2 node_agrees (compiled format) layout.
Proof.
  unfold compiled.
  induction format as [| | |t d1 d2 rest IH1 _] using frx_ind; intros layout H;
    try discriminate H.
  - injection H as <-. constructor.
  - change (spec_layout (t :: d1 :: d2 :: rest))
      with (match spec_class_of_tag t with
            | Some k =>
              if is_digit d1 && is_digit d2
              then cons (k, Z.to_nat (10 * digit_val d1 + digit_val d2))
                     <$> spec_layout rest
              else None
            | None => None
            end) in H.
    destruct (spec_class_of_tag t) as [k|] eqn:Hk; [|discriminate H].
    destruct (is_digit d1 && is_digit d2) eqn:Hd; [|discriminate H].
    destruct (spec_layout rest) as [layout'|]; [|discriminate H].
    injection H as <-.
    destruct (tag_class_agrees t d1 d2 k Hk) as [Ht Hc].
    change (regexp.FindAllString_frx (t :: d1 :: d2 :: rest))
      with (if regexp.is_tag t && is_digit d1 && is_digit d2
            then [t; d1; d2] :: regexp.FindAllString_frx rest
            else regexp.FindAllString_frx (d1 :: d2 :: rest)).
    rewrite Ht. cbn [andb]. rewrite Hd. cbn [map].
    constructor; [|now apply IH1]. split; [reflexivity|exact Hc].
Qed.

Lemma forallb_agree (f g : ascii -> bool) (s : gostring) :
  (forall c, f c = g c) -> forallb f s = forallb g s.
Proof. intros H. induction s as [|c t IH]; cbn; [reflexivity|]. now rewrite H, IH. Qed.

Lemma prog_exact_layout (p : regexp.prog) (layout : list (spec_class * nat)) :
  Forall2 node_agrees p layout ->
  forall cand, (exists segs, cand = concat segs /\ prog_exact p segs)
               <-> spec_exact layout cand.
Proof.
  intros Hag cand. unfold spec_exact.
  enough (forall segs,
    prog_exact p segs
    <-> Forall2 (fun '(k, n) seg =>
               length seg = n /\ forallb (spec_in_class k) seg = true)
            layout segs) as H.
  { split; intros (segs & -> & Hs); exists segs; (split; [reflexivity|]);
      now apply H. }
  induction Hag as [|[a n] [k m] p layout [Hn Hc] _ IH]; intros segs.
  - unfold prog_exact. split; inversion 1; constructor.
  - cbn in Hn, Hc. subst m. rewrite prog_exact_cons. split.
    + intros (seg & segs' & -> & Hl & Hs & Hp). constructor; [|now apply IH].
      split; [exact Hl|]. now rewrite <- (forallb_agree _ _ seg Hc).
    + intros (seg & segs' & [Hl Hs] & Hp & ->)%Forall2_cons_inv_l.
      exists seg, segs'. repeat split; [exact Hl| |now apply IH].
      now rewrite (forallb_agree _ _ seg Hc).
Qed.

Lemma spec_exact_length (layout : list (spec_class * nat)) (cand : gostring) :
  spec_exact layout cand -> len cand = spec_count_sum layout.
Proof.
  intros (segs & -> & H). unfold len, spec_count_sum. f_equal.
  revert segs H. induction layout as [|[k n] layout IH]; intros segs H.
  - apply Forall2_nil_inv_l in H as ->. reflexivity.
  - apply Forall2_cons_inv_l in H as (seg & segs' & [Hl _] & H & ->).
    cbn. rewrite length_app, (IH _ H), Hl. reflexivity.
Qed.

(** [validateBban] accepts exactly the candidates that hold, somewhere, the
    concatenation the layout describes. *)
Lemma validateBban_accepts (i : IBAN) (cs : CountrySettings)
    (layout : list (spec_class * nat)) :
  countrySettings i = Some cs ->
  spec_layout (Format cs) = Some layout ->
  validateBban i = Returned None <->
  exists pre mid post, bban i = pre ++ mid ++ post /\ spec_exact layout mid.
Proof.
  intros Hcs Hlay. rewrite (validateBban_unfold i cs Hcs).
  pose proof (prog_exact_layout _ _ (compiled_layout _ _ Hlay)) as Hex.
  destruct (regexp.MatchString _ _) eqn:E.
  - split; [intros _|reflexivity].
    apply MatchString_spec in E as (pre & rest & Hb & Hm).
    apply match_here_spec in Hm as (segs & post & -> & Hp).
    exists pre, (concat segs), post. split; [exact Hb|].
    apply Hex. eauto.
  - split; [discriminate|]. intros (pre & mid & post & Hb & Hmid).
    apply Hex in Hmid as (segs & -> & Hp).
    assert (regexp.MatchString (compiled (Format cs)) (bban i) = true) as E'.
    { apply MatchString_spec. exists pre, (concat segs ++ post).
      split; [exact Hb|]. apply match_here_spec. eauto. }
    congruence.
Qed.

(** For a candidate as long as the counts add up to, the match is of the
    whole candidate. *)
Lemma validateBban_accepts_whole (i : IBAN) (cs : CountrySettings)
    (layout : list (spec_class * nat)) :
  countrySettings i = Some cs ->
  spec_layout (Format cs) = Some layout ->
  len (bban i) = spec_count_sum layout ->
  validateBban i = Returned None <-> spec_exact layout (bban i).
Proof.
  intros Hcs Hlay Hlen. rewrite (validateBban_accepts i cs layout Hcs Hlay).
  split.
  - intros (pre & mid & post & Hb & Hmid).
    pose proof (spec_exact_length _ _ Hmid) as Hm.
    rewrite Hb in Hlen. unfold len in *. rewrite !length_app in Hlen.
    assert (pre = []) as -> by (apply nil_length_inv; lia).
    assert (post = []) as -> by (apply nil_length_inv; lia).
    rewrite Hb, app_nil_r. exact Hmid.
  - intros H. exists [], (bban i), []. now rewrite app_nil_r.
Qed.

(** C3 (as amended).  For a descriptor of the grammar, of up to
    [max_descriptor] bytes, [validateBban] accepts the candidate exactly
    when the candidate holds, as a contiguous run, the in-order
    concatenation of [repeat_count] characters of each token's class;
    characters before and after that run are tolerated, none between its
    segments.  Any other candidate gets the structural-mismatch error.  For
    a candidate as long as the counts add up to, which is what the length
    check of [NewIBAN] leaves, acceptance is the candidate being exactly that
    concatenation.  (Descriptors beyond the bound are left out: on a
    descriptor long enough the regexp engine refuses the pattern for its
    size.) *)
Theorem validateBban_accepts_iff (i : IBAN) (cs : CountrySettings)
    (layout : list (spec_class * nat)) :
  countrySettings i = Some cs ->
  (length (Format cs) <= max_descriptor)%nat ->
  spec_layout (Format cs) = Some layout ->
  (validateBban i = Returned None <->
   exists pre mid post, bban i = pre ++ mid ++ post /\ spec_exact layout mid)
  /\ (validateBban i <> Returned None ->
      validateBban i = Returned (Some errBbanFormat))
  /\ (len (bban i) = spec_count_sum layout ->
      (validateBban i = Returned None <-> spec_exact layout (bban i))).
Proof.
  intros Hcs _ Hlay.
  pose proof (validateBban_accepts i cs layout Hcs Hlay) as Hacc.
  split; [exact Hacc|]. split.
  - rewrite (validateBban_unfold i cs Hcs).
    now destruct (regexp.MatchString _ _).
  - exact (validateBban_accepts_whole i cs layout Hcs Hlay).
Qed.

(** The statement at the settings of [GB] and the BBAN
    [WEST12345698765432], which is as long as the counts add up to. *)
Lemma validateBban_accepts_iff_witness :
  countrySettings iban_GB82
  = Some {| Length := 22; Format := str "U04F06F08"; Sepa := true |}
  /\ (length (str "U04F06F08") <= max_descriptor)%nat
  /\ (validateBban iban_GB82 = Returned None <->
      spec_exact [(upper_letter, 4%nat); (digit, 6%nat); (digit, 8%nat)]
                 (bban iban_GB82)).
Proof.
  assert (Hsmall : (length (str "U04F06F08") <= max_descriptor)%nat)
    by (unfold max_descriptor; cbn; lia).
  split; [reflexivity|]. split; [exact Hsmall|].
  exact (proj2 (proj2 (validateBban_accepts_iff iban_GB82 _ _ eq_refl Hsmall
                                                eq_refl))
               eq_refl).
Defined.

(** C3, as stated, fails: with the layout of [GB] - four upper letters, six
    digits, eight digits - a candidate with one more digit at its end is
    accepted, and is not exactly that concatenation. *)
Lemma validateBban_exact_counterexample :
  spec_layout (str "U04F06F08")
  = Some [(upper_letter, 4%nat); (digit, 6%nat); (digit, 8%nat)]
  /\ bban iban_GB_long = str "WEST123456987654321"
  /\ validateBban iban_GB_long = Returned None
  /\ ~ spec_exact [(upper_letter, 4%nat); (digit, 6%nat); (digit, 8%nat)]
                  (bban iban_GB_long).
Proof.
  repeat split. intros H%spec_exact_length. discriminate H.
Qed.

(** *** What is passed over in a descriptor *)






(** The tokens of a descriptor are a third of its bytes at most, and the
    pattern compiled for a descriptor within the bound has at most 333
    classes, each repeated 99 times at most. *)
Lemma tokens_length (format : gostring) :
  (3 * length (regexp.FindAllString_frx format) <= length format)%nat.
Proof.
  induction format as [| | |t d1 d2 rest IH1 IH2] using frx_ind;
    try (cbn; lia).
  change (regexp.FindAllString_frx (t :: d1 :: d2 :: rest))
    with (if regexp.is_tag t && is_digit d1 && is_digit d2
          then [t; d1; d2] :: regexp.FindAllString_frx rest
          else regexp.FindAllString_frx (d1 :: d2 :: rest)).
  destruct (regexp.is_tag t && is_digit d1 && is_digit d2);
    cbn [length] in *; lia.
Qed.

Lemma compiled_within_bound (format : gostring) :
  (length format <= max_descriptor)%nat ->
  (length (compiled format) <= 333)%nat
  /\ Forall (fun node => (snd node <= 99)%nat) (compiled format).
Proof.
  unfold max_descriptor, compiled. intros H. split.
  - rewrite length_map. pose proof (tokens_length format). lia.
  - apply Forall_map.
    eapply Forall_impl; [apply FindAllString_frx_tokens|].
    intros ps Hps. cbn. pose proof (token_count_range ps Hps). lia.
Qed.



(** What is kept of the two descriptors outside the grammar used below. *)
Example kept_values :
  kept (str "X04F06F08") = str "F06F08"
  /\ kept (str "U0xF06F08") = str "F06F08"
  /\ kept (str "U04F06F08") = str "U04F06F08".
Proof. repeat split. Qed.


(** ** The table *)

Lemma countries_entries_consistent :
  forallb (fun e => entry_consistent (snd e)) countries_entries = true.
Proof. vm_compute. reflexivity. Qed.

(** No key occurs twice in the literal, as Go demands. *)
Lemma countries_entries_NoDup : NoDup (countries_entries.*1).
Proof. apply (bool_decide_unpack (NoDup (countries_entries.*1))). vm_compute. exact I. Qed.

Lemma countries_lookup (cc : gostring) (cs : CountrySettings) :
  countries !! cc = Some cs <-> (cc, cs) ∈ countries_entries.
Proof.
  unfold countries. split.
  - apply elem_of_list_to_map_2.
  - apply elem_of_list_to_map_1, countries_entries_NoDup.
Qed.

Lemma countries_entry_consistent (cc : gostring) (cs : CountrySettings) :
  countries !! cc = Some cs ->
  exists layout, spec_layout (Format cs) = Some layout
                 /\ spec_count_sum layout = Length cs - 4.
Proof.
  intros H%countries_lookup%list_elem_of_In.
  pose proof countries_entries_consistent as Hall.
  rewrite forallb_forall in Hall. specialize (Hall _ H). cbn in Hall.
  unfold entry_consistent in Hall.
  destruct (spec_layout (Format cs)) as [layout|]; [|discriminate].
  exists layout. split; [reflexivity|]. now apply Z.eqb_eq.
Qed.

(** C6.  Every entry of the table has a descriptor of the grammar whose
    repeat counts add up to its [Length] minus 4. *)
Theorem countries_counts_sum (cc : gostring) (cs : CountrySettings) :
  countries !! cc = Some cs ->
  exists layout, spec_layout (Format cs) = Some layout
                 /\ spec_count_sum layout = Length cs - 4.
Proof. apply countries_entry_consistent. Qed.

(** The statement at the entry of [GB]. *)
Lemma countries_counts_sum_witness :
  countries !! str "GB"
  = Some {| Length := 22; Format := str "U04F06F08"; Sepa := true |}
  /\ exists layout, spec_layout (str "U04F06F08") = Some layout
                    /\ spec_count_sum layout = 22 - 4.
Proof.
  assert (H : countries !! str "GB"
              = Some {| Length := 22; Format := str "U04F06F08"; Sepa := true |})
    by (vm_compute; reflexivity).
  split; [exact H|]. exact (countries_counts_sum _ _ H).
Defined.

(** ** The display form *)

Lemma spec_display_short (s : gostring) :
  ~ (4 < length s)%nat -> spec_display s = s.
Proof.
  destruct s as [|a [|b [|c [|d [|e t]]]]]; try reflexivity.
  cbn. lia.
Qed.

Lemma spec_display_long (s : gostring) :
  (4 < length s)%nat ->
  spec_display s = take 4 s ++ str " " ++ spec_display (drop 4 s).
Proof.
  destruct s as [|a [|b [|c [|d [|e t]]]]]; cbn; try lia. reflexivity.
Qed.

(** The loop of [NewIBAN] does not panic, and [prc + s] after it is the
    display form. *)
Lemma printLoop_display (prc s : gostring) :
  exists prc' rest, printLoop prc s = Returned (prc', rest)
                    /\ prc' ++ rest = prc ++ spec_display s.
Proof.
  funelim (printLoop prc s).
  - exists prc, s. now rewrite spec_display_short.
  - match goal with H : slice_to s 4 = Panicked _ |- _ =>
      pose proof H as E; rewrite slice_to_ok in E by lia; discriminate E end.
  - match goal with
    | IH : forall _ _, _ = printLoop _ _ -> _,
      Hg : slice_to s 4 = Returned ?g,
      Hs : slice_from s 4 = Returned ?s' |- _ =>
        pose proof Hg as Eg; pose proof Hs as Es;
        rewrite slice_to_ok in Eg by lia; rewrite slice_from_ok in Es by lia;
        injection Eg as <-; injection Es as <-;
        destruct (IH _ _ eq_refl) as (prc' & rest & -> & IH')
    | IH : exists _ _, printLoop _ ?s' = _ /\ _,
      Hg : slice_to s 4 = Returned ?g,
      Hs : slice_from s 4 = Returned ?s' |- _ =>
        pose proof Hg as Eg; pose proof Hs as Es;
        rewrite slice_to_ok in Eg by lia; rewrite slice_from_ok in Es by lia;
        injection Eg as <-; injection Es as <-;
        destruct IH as (prc' & rest & -> & IH')
    end.
    exists prc', rest. split; [reflexivity|].
    rewrite IH', (spec_display_long s) by lia. now rewrite <- !app_assoc.
  - match goal with H : slice_from s 4 = Panicked _ |- _ =>
      pose proof H as E; rewrite slice_from_ok in E by lia; discriminate E end.
Qed.

(** Induction four characters at a time. *)
Lemma group_ind (P : gostring -> Prop) :
  (forall s, ~ (4 < length s)%nat -> P s) ->
  (forall s, (4 < length s)%nat -> P (drop 4 s) -> P s) ->
  forall s, P s.
Proof.
  intros Hshort Hlong s.
  enough (forall n s, (length s <= n)%nat -> P s) as H by (apply (H (length s)); lia).
  clear s. induction n as [|n IH]; intros s Hs.
  - apply Hshort. lia.
  - destruct (decide (4 < length s)%nat) as [Hl|Hl]; [|now apply Hshort].
    apply Hlong; [exact Hl|]. apply IH. rewrite length_drop. lia.
Qed.

Lemma RemoveSpaces_app (s t : gostring) :
  strings.RemoveSpaces (s ++ t) = strings.RemoveSpaces s ++ strings.RemoveSpaces t.
Proof. apply filter_app. Qed.

(** Removing the spaces of the display form of [s] is removing those of
    [s]. *)
Lemma RemoveSpaces_display (s : gostring) :
  strings.RemoveSpaces (spec_display s) = strings.RemoveSpaces s.
Proof.
  induction s as [s Hs|s Hs IH] using group_ind.
  - now rewrite spec_display_short.
  - rewrite (spec_display_long s Hs), !RemoveSpaces_app, IH.
    change (strings.RemoveSpaces (str " ")) with (@nil ascii).
    cbn [app]. now rewrite <- RemoveSpaces_app, take_drop.
Qed.

Lemma upper_alnum_not_space (c : ascii) :
  regexp.is_upper_alnum c = true ->
  c <> " "%char /\ between 97 122 (byte_val c) = false.
Proof.
  each_byte c; intros H; try discriminate H; (split; [discriminate|reflexivity]).
Qed.

(** A string that passes the gate has no space to remove and no letter to
    raise. *)
Lemma gate_RemoveSpaces (s : gostring) :
  regexp.MatchString_gate s = true -> strings.RemoveSpaces s = s.
Proof.
  unfold regexp.MatchString_gate, strings.RemoveSpaces.
  induction s as [|c t IH]; [reflexivity|]. cbn [forallb].
  intros [Hc Ht]%andb_prop. destruct (upper_alnum_not_space c Hc) as [Hsp _].
  rewrite filter_cons_True by exact Hsp. now rewrite IH.
Qed.

Lemma gate_hasLower (s : gostring) :
  regexp.MatchString_gate s = true -> strings.hasLower s = false.
Proof.
  unfold regexp.MatchString_gate, strings.hasLower.
  induction s as [|c t IH]; [reflexivity|]. cbn.
  intros [Hc Ht]%andb_prop. destruct (upper_alnum_not_space c Hc) as [_ Hlo].
  now rewrite Hlo, IH.
Qed.

Lemma gate_ToUpper (f : Z -> Z) (s : gostring) :
  regexp.MatchString_gate s = true -> strings.ToUpper f s = s.
Proof.
  intros H. unfold strings.ToUpper.
  now rewrite (gate_isASCII s H), (gate_hasLower s H).
Qed.

(** ** [NewIBAN] *)

Lemma gate_cons (c : ascii) (t : gostring) :
  regexp.MatchString_gate (c :: t) = true ->
  (byte_val c <? 128) = true /\ regexp.MatchString_gate t = true.
Proof.
  unfold regexp.MatchString_gate. cbn [forallb].
  intros [Hc Ht]%andb_prop. split; [now apply upper_alnum_is_ascii|exact Ht].
Qed.

(** On a string that passed the gate, a header found is the first four
    bytes. *)
Lemma header_shape (s : gostring) :
  regexp.MatchString_gate s = true ->
  regexp.FindString_header s = []
  \/ exists c0 c1 c2 c3 t,
       s = c0 :: c1 :: c2 :: c3 :: t
       /\ regexp.FindString_header s = [c0; c1; c2; c3].
Proof.
  intros Hg. unfold regexp.FindString_header.
  destruct s as [|c0 s]; [now left|].
  apply gate_cons in Hg as [H0 Hg]. rewrite (ascii_byte_decodes c0 s H0).
  cbn [Nat.eqb orb drop]. rewrite !drop_0.
  destruct (regexp.is_digit_rune (byte_val c0)); [now left|].
  destruct s as [|c1 s]; [now left|].
  apply gate_cons in Hg as [H1 Hg]. rewrite (ascii_byte_decodes c1 s H1).
  cbn [Nat.eqb orb drop]. rewrite !drop_0.
  destruct (regexp.is_digit_rune (byte_val c1)); [now left|].
  destruct s as [|c2 [|c3 t]]; [now left|now left|].
  destruct (is_digit c2 && is_digit c3); [|now left].
  right. now exists c0, c1, c2, c3, t.
Qed.

Section NewIBAN_properties.

Variable unicode_ToUpper : Z -> Z.


(** Every run of [NewIBAN] ends in one of two ways. *)
Lemma NewIBAN_cases (s : gostring) :
  (exists e, NewIBAN unicode_ToUpper s = Returned (None, Some e))
  \/ (exists cs,
        NewIBAN unicode_ToUpper s = Returned (Some (built (normalized unicode_ToUpper s) cs), None)
        /\ regexp.MatchString_gate (normalized unicode_ToUpper s) = true
        /\ countries !! take 2 (normalized unicode_ToUpper s) = Some cs
        /\ len (normalized unicode_ToUpper s) = Length cs
        /\ (4 <= length (normalized unicode_ToUpper s))%nat
        /\ validateBban (built (normalized unicode_ToUpper s) cs) = Returned None
        /\ validateCheckDigits (built (normalized unicode_ToUpper s) cs) = Returned None).
Proof.
  unfold NewIBAN. fold (normalized unicode_ToUpper s).
  generalize (normalized unicode_ToUpper s) as n. clear s. intros n. cbv zeta.
  destruct (regexp.MatchString_gate n) eqn:Hgate; cbn [negb]; [|eauto].
  destruct (header_shape n Hgate) as [->|(c0 & c1 & c2 & c3 & t & -> & ->)].
  { rewrite decide_True by reflexivity. eauto. }
  rewrite decide_False by discriminate.
  change (slice [c0; c1; c2; c3] 0 2) with (Returned [c0; c1]).
  change (slice [c0; c1; c2; c3] 2 4) with (Returned [c2; c3]).
  cbn [mbind outcome_bind].
  set (n := c0 :: c1 :: c2 :: c3 :: t) in *.
  assert (Hlen : (4 <= length n)%nat) by (cbn; lia).
  destruct (countries !! [c0; c1]) as [cs|] eqn:Hcs; [|eauto].
  destruct (Z.eqb_spec (len n) (Length cs)) as [Hl|Hl]; cbn [negb]; [|eauto].
  rewrite (slice_from_ok n 4 Hlen). cbn [mbind outcome_bind].
  erewrite validateBban_unfold by reflexivity. cbn [mbind outcome_bind bban Format].
  destruct (regexp.MatchString _ _) eqn:Hm; [|eauto].
  erewrite validateCheckDigits_unfold by exact Hlen. cbn [code].
  destruct (big.SetString10 _) as [v|] eqn:Hv; cbn [mbind outcome_bind]; [|eauto].
  destruct (negb _) eqn:Hr; cbn [mbind outcome_bind]; [eauto|].
  destruct (printLoop_display [] n) as (prc & rest & -> & Hd).
  cbn [mbind outcome_bind]. right. exists cs.
  rewrite Hd. cbn [app]. repeat split; try assumption.
  - rewrite (validateBban_unfold (built n cs) cs eq_refl). cbn [bban built]. now rewrite Hm.
  - rewrite (validateCheckDigits_unfold (built n cs) Hlen). cbn [code built].
    now rewrite Hv, Hr.
Qed.

Lemma NewIBAN_same_normalized (s1 s2 : gostring) :
  normalized unicode_ToUpper s1 = normalized unicode_ToUpper s2 -> NewIBAN unicode_ToUpper s1 = NewIBAN unicode_ToUpper s2.
Proof.
  unfold NewIBAN, normalized. intros H. now rewrite H.
Qed.

Lemma normalized_fixed (s : gostring) :
  regexp.MatchString_gate s = true -> normalized unicode_ToUpper s = s.
Proof.
  intros H. unfold normalized.
  now rewrite (gate_RemoveSpaces s H), (gate_ToUpper _ s H).
Qed.

(** What [NewIBAN] returns has a BBAN that is exactly what the layout of its
    country describes: the length check and the table's counts leave the
    unanchored pattern nothing to skip. *)
Lemma NewIBAN_bban_exact (s : gostring) (i : IBAN) :
  NewIBAN unicode_ToUpper s = Returned (Some i, None) ->
  exists cs layout,
    countrySettings i = Some cs
    /\ spec_layout (Format cs) = Some layout
    /\ spec_exact layout (bban i).
Proof.
  intros H.
  destruct (NewIBAN_cases s)
    as [[e He]|(cs & He & Hg & Hcs & Hl & Hlen & Hb & _)];
    rewrite He in H; [discriminate|]. injection H as <-.
  destruct (countries_entry_consistent _ cs Hcs) as (layout & Hlay & Hsum).
  exists cs, layout. split; [reflexivity|]. split; [exact Hlay|].
  apply (validateBban_accepts_whole (built (normalized unicode_ToUpper s) cs) cs layout eq_refl Hlay);
    [|exact Hb].
  rewrite Hsum, <- Hl. unfold len. cbn [bban built]. rewrite length_drop. lia.
Qed.

(** C5.  [NewIBAN] returns on every input and does not panic; it returns
    either a value with all its fields set, and a nil error, or a nil
    pointer and an error. *)
Theorem NewIBAN_all_or_nothing (s : gostring) :
  (exists i cs,
     NewIBAN unicode_ToUpper s = Returned (Some i, None)
     /\ code i = normalized unicode_ToUpper s
     /\ printCode i = spec_display (code i)
     /\ countryCode i = take 2 (code i)
     /\ checkDigits i = take 2 (drop 2 (code i))
     /\ countrySettings i = Some cs
     /\ countries !! countryCode i = Some cs
     /\ len (code i) = Length cs
     /\ bban i = drop 4 (code i))
  \/ (exists e, NewIBAN unicode_ToUpper s = Returned (None, Some e)).
Proof.
  destruct (NewIBAN_cases s) as [He|(cs & He & Hg & Hcs & Hl & _)];
    [right; exact He|left].
  exists (built (normalized unicode_ToUpper s) cs), cs. repeat split; assumption.
Qed.

(** C7.  When [NewIBAN] succeeds, removing the spaces of the value's
    [PrintCode()] gives back its code. *)
Theorem PrintCode_without_spaces (s : gostring) (i : IBAN) :
  NewIBAN unicode_ToUpper s = Returned (Some i, None) ->
  strings.RemoveSpaces (PrintCode i) = code i.
Proof.
  intros H.
  destruct (NewIBAN_cases s) as [[e He]|(cs & He & Hg & _)];
    rewrite He in H; [discriminate|]. injection H as <-.
  unfold PrintCode. cbn [printCode code built].
  now rewrite RemoveSpaces_display, gate_RemoveSpaces.
Qed.

(** C8.  When [NewIBAN] succeeds on [s], it succeeds on the code of the
    value it returned, and returns a value with the same fields (the
    settings compared as values). *)
Theorem NewIBAN_idempotent (s : gostring) (i : IBAN) :
  NewIBAN unicode_ToUpper s = Returned (Some i, None) ->
  NewIBAN unicode_ToUpper (code i) = Returned (Some i, None).
Proof.
  intros H.
  destruct (NewIBAN_cases s) as [[e He]|(cs & He & Hg & _)];
    rewrite He in H; [discriminate|]. injection H as <-.
  cbn [code built]. rewrite <- He. apply NewIBAN_same_normalized.
  now apply normalized_fixed.
Qed.

(** C10.  On the empty input, and on an input of spaces only, the
    normalized string is empty and passes the gate, and [NewIBAN] returns a
    nil pointer with the error of the header step. *)
Theorem NewIBAN_blank (s : gostring) :
  Forall (fun c => c = " "%char) s ->
  normalized unicode_ToUpper s = []
  /\ regexp.MatchString_gate (normalized unicode_ToUpper s) = true
  /\ NewIBAN unicode_ToUpper s = Returned (None, Some errHeader).
Proof.
  intros H.
  assert (Hs : strings.RemoveSpaces s = []).
  { unfold strings.RemoveSpaces. induction H as [|c t -> _ IH]; [reflexivity|].
    now rewrite filter_cons_False by (intros Hc; now apply Hc). }
  unfold NewIBAN, normalized. rewrite Hs. repeat split.
Qed.

(** C1 is not what the code does.  On the value [NewIBAN] returns for
    [GB82 WEST 1234 5698 7654 32] both checks pass and [Validate] returns an
    error, with an empty message; on no value does [Validate] return nil. *)
Theorem Validate_returns_error :
  NewIBAN unicode_ToUpper (str "GB82 WEST 1234 5698 7654 32")
  = Returned (Some iban_GB82, None)
  /\ validateBban iban_GB82 = Returned None
  /\ validateCheckDigits iban_GB82 = Returned None
  /\ Validate iban_GB82 = Returned (Some [])
  /\ forall i, Validate i <> Returned None.
Proof.
  split; [vm_compute; reflexivity|].
  split; [vm_compute; reflexivity|].
  split; [vm_compute; reflexivity|].
  split; [vm_compute; reflexivity|].
  intros i. unfold Validate.
  destruct (validateBban i) as [e1|p]; cbn; [|discriminate].
  destruct (validateCheckDigits i) as [e2|p]; cbn; discriminate.
Qed.

End NewIBAN_properties.

(** The statement at [GB82 WEST 1234 5698 7654 32]. *)
Lemma PrintCode_without_spaces_witness :
  NewIBAN (fun r => r) (str "GB82 WEST 1234 5698 7654 32")
  = Returned (Some iban_GB82, None)
  /\ strings.RemoveSpaces (PrintCode iban_GB82) = code iban_GB82.
Proof.
  assert (H : NewIBAN (fun r => r) (str "GB82 WEST 1234 5698 7654 32")
              = Returned (Some iban_GB82, None)) by (vm_compute; reflexivity).
  split; [exact H|]. exact (PrintCode_without_spaces _ _ _ H).
Defined.

(** The statement at [gb82 west 1234 5698 7654 32]. *)
Lemma NewIBAN_idempotent_witness :
  NewIBAN (fun r => r) (str "gb82 west 1234 5698 7654 32")
  = Returned (Some iban_GB82, None)
  /\ NewIBAN (fun r => r) (code iban_GB82) = Returned (Some iban_GB82, None).
Proof.
  assert (H : NewIBAN (fun r => r) (str "gb82 west 1234 5698 7654 32")
              = Returned (Some iban_GB82, None)) by (vm_compute; reflexivity).
  split; [exact H|]. exact (NewIBAN_idempotent _ _ _ H).
Defined.

(** The statement at an input of three spaces. *)
Lemma NewIBAN_blank_witness :
  Forall (fun c => c = " "%char) (str "   ")
  /\ NewIBAN (fun r => r) (str "   ") = Returned (None, Some errHeader).
Proof.
  assert (H : Forall (fun c => c = " "%char) (str "   "))
    by (repeat constructor).
  split; [exact H|]. exact (proj2 (proj2 (NewIBAN_blank (fun r => r) _ H))).
Defined.

(** ** Known vectors (specification, 8) *)

Section Vectors.

Variable unicode_ToUpper : Z -> Z.

Example Itoa_values :
  strconv.Itoa 10 = str "10" /\ strconv.Itoa 35 = str "35"
  /\ strconv.Itoa 0 = str "0" /\ strconv.Itoa (-7) = str "-7".
Proof. repeat split. Qed.

Example NewIBAN_GB82_last_digit_altered :
  NewIBAN unicode_ToUpper (str "GB82 WEST 1234 5698 7654 33")
  = Returned (None, Some errIncorrectCheckDigits).
Proof. vm_compute. reflexivity. Qed.

Example NewIBAN_DE89 :
  NewIBAN unicode_ToUpper (str "DE89 3704 0044 0532 0130 00")
  = Returned (Some (built (str "DE89370400440532013000")
                          {| Length := 22; Format := str "F08F10";
                             Sepa := true |}), None).
Proof. vm_compute. reflexivity. Qed.

Example NewIBAN_unsupported_country :
  NewIBAN unicode_ToUpper (str "XX00 0000 0000")
  = Returned (None, Some (str "Unsupported country code XX")).
Proof. vm_compute. reflexivity. Qed.

Example NewIBAN_GB_one_short :
  NewIBAN unicode_ToUpper (str "GB82WEST1234569876543")
  = Returned (None, Some (str
      "IBAN length 21 does not match length 22 specified for country code GB")).
Proof. vm_compute. reflexivity. Qed.

Example NewIBAN_GB_letter_for_digit :
  NewIBAN unicode_ToUpper (str "GB82WE5T12345698765432")
  = Returned (None, Some errBbanFormat).
Proof. vm_compute. reflexivity. Qed.

Example NewIBAN_lower_case :
  NewIBAN unicode_ToUpper (str "gb82 west 1234 5698 7654 32")
  = NewIBAN unicode_ToUpper (str "GB82WEST12345698765432").
Proof. vm_compute. reflexivity. Qed.

(** A tab is not a space: it stays, and the gate refuses it. *)
Example NewIBAN_tab :
  NewIBAN unicode_ToUpper (str "GB82" ++ ["009"%char] ++ str "WEST12345698765432")
  = Returned (None, Some errNotAlphanumeric).
Proof. vm_compute. reflexivity. Qed.

(** The shortest and the longest codes of the table. *)
Example NewIBAN_NO_and_LC :
  NewIBAN unicode_ToUpper (str "NO93 8601 1117 947")
  = Returned (Some (built (str "NO9386011117947")
                          {| Length := 15; Format := str "F04F06F01";
                             Sepa := true |}), None)
  /\ NewIBAN unicode_ToUpper (str "LC55 HEMM 0001 0001 0012 0012 0002 3015")
     = Returned (Some (built (str "LC55HEMM000100010012001200023015")
                             {| Length := 32; Format := str "U04A24";
                                Sepa := false |}), None).
Proof. split; vm_compute; reflexivity. Qed.

End Vectors.

(** The path of [ToUpper] for text that is not ASCII: [unicode.ToUpper] sends
    the long s, U+017F, to [S], and the code is then the one of
    [GB82 WEST 1234 5698 7654 32]. *)
Example NewIBAN_long_s :
  NewIBAN (fun r => if r =? 383 then 83 else r)
          (str "GB82 WE" ++ [byte_of 197; byte_of 191]
           ++ str "T 1234 5698 7654 32")
  = Returned (Some iban_GB82, None).
Proof. vm_compute. reflexivity. Qed.

(** ** [NewIBAN], step by step *)

Lemma header_ok_shape (n : gostring) :
  header_ok n = true ->
  exists c0 c1 c2 c3 t, n = c0 :: c1 :: c2 :: c3 :: t.
Proof. destruct n as [|c0 [|c1 [|c2 [|c3 t]]]]; try discriminate. eauto 6. Qed.

(** On a string that passed the gate, the header found is the first four
    bytes when they have the shape, and nothing otherwise. *)
Lemma header_found (n : gostring) :
  regexp.MatchString_gate n = true ->
  regexp.FindString_header n = if header_ok n then take 4 n else [].
Proof.
  intros Hg. unfold regexp.FindString_header, header_ok.
  destruct n as [|c0 n]; [reflexivity|].
  apply gate_cons in Hg as [H0 Hg]. rewrite (ascii_byte_decodes c0 n H0).
  cbn [Nat.eqb orb drop]. rewrite !drop_0.
  change (regexp.is_digit_rune (byte_val c0)) with (is_digit c0).
  destruct (is_digit c0).
  { destruct n as [|? [|? [|? ?]]]; reflexivity. }
  destruct n as [|c1 n]; [reflexivity|].
  apply gate_cons in Hg as [H1 Hg]. rewrite (ascii_byte_decodes c1 n H1).
  cbn [Nat.eqb orb drop]. rewrite !drop_0.
  change (regexp.is_digit_rune (byte_val c1)) with (is_digit c1).
  destruct (is_digit c1).
  { destruct n as [|? [|? ?]]; reflexivity. }
  destruct n as [|c2 [|c3 t]]; reflexivity.
Qed.

(** [validateCheckDigits] on a code of [[0-9A-Z]]: the remainder decides. *)
Lemma validateCheckDigits_decides (i : IBAN) :
  (4 <= length (code i))%nat ->
  regexp.MatchString_gate (code i) = true ->
  validateCheckDigits i =
  Returned (if spec_numeral (code i) mod 97 =? 1
            then None else Some errIncorrectCheckDigits).
Proof.
  intros Hlen Hgate.
  rewrite (validateCheckDigits_unfold i Hlen),
    (SetString_expand_loop _ Hlen Hgate).
  unfold big.Mod. now destruct (_ =? 1).
Qed.

(** [NewIBAN] is its checks in their order, on the normalized input. *)
Lemma NewIBAN_by_steps (unicode_ToUpper : Z -> Z) (s : gostring) :
  NewIBAN unicode_ToUpper s = NewIBAN_steps (normalized unicode_ToUpper s).
Proof.
  unfold NewIBAN, NewIBAN_steps. fold (normalized unicode_ToUpper s).
  generalize (normalized unicode_ToUpper s) as n. clear s. intros n. cbv zeta.
  destruct (regexp.MatchString_gate n) eqn:Hgate; cbn [negb]; [|reflexivity].
  rewrite (header_found n Hgate).
  destruct (header_ok n) eqn:Hh; cbn [negb];
    [|now rewrite decide_True by reflexivity].
  destruct (header_ok_shape n Hh) as (c0 & c1 & c2 & c3 & t & ->).
  change (take 4 (c0 :: c1 :: c2 :: c3 :: t)) with [c0; c1; c2; c3].
  change (take 2 (c0 :: c1 :: c2 :: c3 :: t)) with [c0; c1].
  rewrite decide_False by discriminate.
  change (slice [c0; c1; c2; c3] 0 2) with (Returned [c0; c1]).
  change (slice [c0; c1; c2; c3] 2 4) with (Returned [c2; c3]).
  cbn [mbind outcome_bind].
  set (n := c0 :: c1 :: c2 :: c3 :: t) in *.
  assert (Hlen : (4 <= length n)%nat) by (cbn; lia).
  destruct (countries !! [c0; c1]) as [cs|] eqn:Hcs; [|reflexivity].
  destruct (len n =? Length cs); cbn [negb]; [|reflexivity].
  rewrite (slice_from_ok n 4 Hlen). cbn [mbind outcome_bind].
  erewrite validateBban_unfold by reflexivity. cbn [mbind outcome_bind bban Format].
  change (drop 4 n) with t.
  destruct (regexp.MatchString _ _); cbn [negb]; [|reflexivity].
  erewrite validateCheckDigits_decides by assumption. cbn [code].
  destruct (_ =? 1); cbn [negb mbind outcome_bind]; [|reflexivity].
  destruct (printLoop_display [] n) as (prc & rest & -> & Hd).
  cbn [mbind outcome_bind]. now rewrite Hd.
Qed.

(** The pattern compiled for a descriptor of the grammar, on a candidate as
    long as the counts add up to. *)
Lemma compiled_match_whole (format cand : gostring)
    (layout : list (spec_class * nat)) :
  spec_layout format = Some layout ->
  len cand = spec_count_sum layout ->
  regexp.MatchString (compiled format) cand = true <-> spec_exact layout cand.
Proof.
  intros Hlay Hlen.
  set (cs := {| Length := 0; Format := format; Sepa := false |}).
  set (i := {| code := []; printCode := []; countryCode := [];
               checkDigits := []; countrySettings := Some cs; bban := cand |}).
  pose proof (validateBban_accepts_whole i cs layout eq_refl Hlay Hlen) as H.
  rewrite (validateBban_unfold i cs eq_refl) in H. cbn [bban Format i cs] in H.
  rewrite <- H. destruct (regexp.MatchString _ _); split; congruence.
Qed.

(** The seven ways [NewIBAN] ends, each with the condition on the
    normalized input under which it does. *)
Lemma NewIBAN_outcomes (unicode_ToUpper : Z -> Z) (s : gostring) :
  let n := normalized unicode_ToUpper s in
  let r := NewIBAN unicode_ToUpper s in
  (regexp.MatchString_gate n = false
   /\ r = Returned (None, Some errNotAlphanumeric))
  \/ (regexp.MatchString_gate n = true /\ header_ok n = false
      /\ r = Returned (None, Some errHeader))
  \/ (regexp.MatchString_gate n = true /\ header_ok n = true
      /\ countries !! take 2 n = None
      /\ r = Returned (None, Some (errUnsupported (take 2 n))))
  \/ (exists cs,
        regexp.MatchString_gate n = true /\ header_ok n = true
        /\ countries !! take 2 n = Some cs /\ len n <> Length cs
        /\ r = Returned (None, Some (errLength (len n) (Length cs) (take 2 n))))
  \/ (exists cs layout,
        regexp.MatchString_gate n = true /\ header_ok n = true
        /\ countries !! take 2 n = Some cs /\ len n = Length cs
        /\ spec_layout (Format cs) = Some layout
        /\ ~ spec_exact layout (drop 4 n)
        /\ r = Returned (None, Some errBbanFormat))
  \/ (exists cs layout,
        regexp.MatchString_gate n = true /\ header_ok n = true
        /\ countries !! take 2 n = Some cs /\ len n = Length cs
        /\ spec_layout (Format cs) = Some layout
        /\ spec_exact layout (drop 4 n)
        /\ spec_numeral n mod 97 <> 1
        /\ r = Returned (None, Some errIncorrectCheckDigits))
  \/ (exists cs layout,
        regexp.MatchString_gate n = true /\ header_ok n = true
        /\ countries !! take 2 n = Some cs /\ len n = Length cs
        /\ spec_layout (Format cs) = Some layout
        /\ spec_exact layout (drop 4 n)
        /\ spec_numeral n mod 97 = 1
        /\ r = Returned (Some (built n cs), None)).
Proof.
  intros n r. subst r. rewrite NewIBAN_by_steps. fold n. unfold NewIBAN_steps.
  destruct (regexp.MatchString_gate n) eqn:Hg; cbn [negb];
    [|left; split; reflexivity].
  right. destruct (header_ok n) eqn:Hh; cbn [negb];
    [|left; repeat split].
  right. destruct (countries !! take 2 n) as [cs|] eqn:Hcs;
    [|left; repeat split].
  right. destruct (Z.eqb_spec (len n) (Length cs)) as [Hl|Hl]; cbn [negb];
    [|left; exists cs; repeat split; assumption].
  right. destruct (countries_entry_consistent _ cs Hcs) as (layout & Hlay & Hsum).
  destruct (header_ok_shape n Hh) as (c0 & c1 & c2 & c3 & t & Hn).
  assert (Hb : len (drop 4 n) = spec_count_sum layout).
  { rewrite Hsum, <- Hl. unfold len. rewrite length_drop, Hn. cbn [length]. lia. }
  pose proof (compiled_match_whole _ _ _ Hlay Hb) as Hm.
  destruct (regexp.MatchString _ _); cbn [negb].
  2:{ left. exists cs, layout. repeat split; try assumption.
      intros H%Hm. discriminate H. }
  right. assert (He : spec_exact layout (drop 4 n)) by (apply Hm; reflexivity).
  destruct (Z.eqb_spec (spec_numeral n mod 97) 1) as [Hr|Hr]; cbn [negb].
  - right. exists cs, layout. repeat split; assumption.
  - left. exists cs, layout. repeat split; assumption.
Qed.

(** Two results of [NewIBAN] with different messages, or one with a value
    and one with an error, are different. *)
Ltac results_clash H :=
  exfalso;
  first
    [ discriminate H
    | injection H;
      unfold errLength, errUnsupported, errNotAlphanumeric, errHeader,
        errBbanFormat, errIncorrectCheckDigits, errCheckDigitsFailed, str;
      cbn [list_ascii_of_string app]; discriminate ].

(** The outcomes of [NewIBAN] for the input at hand, with [r = ...] rewritten
    by what is assumed about the result. *)
Ltac by_outcomes f s E :=
  let H := fresh "Hout" in
  pose proof (NewIBAN_outcomes f s) as H; cbv zeta in H;
  try rewrite E in H;
  decompose [and or ex] H; clear H.

(** Two lookups of the same key, two layouts of the same descriptor: the
    same settings, the same layout. *)
Ltac same_settings :=
  repeat match goal with
  | H1 : countries !! ?k = Some ?a, H2 : countries !! ?k = Some ?b |- _ =>
    assert (a = b) by congruence; subst b; clear H2
  | H1 : spec_layout ?f = Some ?a, H2 : spec_layout ?f = Some ?b |- _ =>
    assert (a = b) by congruence; subst b; clear H2
  end.

Section NewIBAN_outcome_properties.

Variable unicode_ToUpper : Z -> Z.

(** X1.  [NewIBAN] accepts an input exactly when its normalized form is made
    of [[0-9A-Z]], begins with two non-digits and two digits, has a country
    code of the table and that country's length, has a BBAN that is exactly
    what the country's layout describes, and leaves remainder 1 modulo 97;
    the value returned is then the one built from that form. *)
Theorem NewIBAN_accepts_iff (s : gostring) (i : IBAN) :
  NewIBAN unicode_ToUpper s = Returned (Some i, None) <->
  exists cs layout,
    i = built (normalized unicode_ToUpper s) cs
    /\ regexp.MatchString_gate (normalized unicode_ToUpper s) = true
    /\ header_ok (normalized unicode_ToUpper s) = true
    /\ countries !! take 2 (normalized unicode_ToUpper s) = Some cs
    /\ len (normalized unicode_ToUpper s) = Length cs
    /\ spec_layout (Format cs) = Some layout
    /\ spec_exact layout (drop 4 (normalized unicode_ToUpper s))
    /\ spec_numeral (normalized unicode_ToUpper s) mod 97 = 1.
Proof.
  split.
  - intros E. by_outcomes unicode_ToUpper s E;
      match goal with
      | H : Returned (Some _, None) = Returned (Some _, None) |- _ =>
        injection H as ->; eauto 12
      | H : Returned _ = Returned _ |- _ => results_clash H
      end.
  - intros (cs & layout & -> & Hg & Hh & Hcs & Hl & Hlay & Hex & Hr).
    by_outcomes unicode_ToUpper s I; same_settings;
      first [assumption | congruence | tauto].
Qed.


(** X3.  [NewIBAN] reports an unsupported country exactly when the
    normalized input passes the character and header checks and its first
    two characters are no key of the table, and the error names those two
    characters.  It reports a length error exactly when the key is in the
    table and the length of the normalized input is not the entry's
    [Length], and the error carries that length, the entry's [Length] and
    the country code. *)
Theorem NewIBAN_country_and_length_errors (s : gostring) :
  (forall cc,
     NewIBAN unicode_ToUpper s = Returned (None, Some (errUnsupported cc))
     <-> regexp.MatchString_gate (normalized unicode_ToUpper s) = true
         /\ header_ok (normalized unicode_ToUpper s) = true
         /\ cc = take 2 (normalized unicode_ToUpper s)
         /\ countries !! cc = None)
  /\ ((exists a b cc,
         NewIBAN unicode_ToUpper s = Returned (None, Some (errLength a b cc)))
      <-> regexp.MatchString_gate (normalized unicode_ToUpper s) = true
          /\ header_ok (normalized unicode_ToUpper s) = true
          /\ exists cs,
               countries !! take 2 (normalized unicode_ToUpper s) = Some cs
               /\ len (normalized unicode_ToUpper s) <> Length cs)
  /\ (forall cs,
        regexp.MatchString_gate (normalized unicode_ToUpper s) = true ->
        header_ok (normalized unicode_ToUpper s) = true ->
        countries !! take 2 (normalized unicode_ToUpper s) = Some cs ->
        len (normalized unicode_ToUpper s) <> Length cs ->
        NewIBAN unicode_ToUpper s
        = Returned (None, Some (errLength (len (normalized unicode_ToUpper s))
                                          (Length cs)
                                          (take 2 (normalized unicode_ToUpper s))))).
Proof.
  split; [|split].
  - intros cc. split.
    + intros E. by_outcomes unicode_ToUpper s E;
        match goal with
        | H : Returned (None, Some (errUnsupported _))
              = Returned (None, Some (errUnsupported _)) |- _ =>
          injection H as H; subst cc; repeat split; assumption
        | H : Returned _ = Returned _ |- _ => results_clash H
        end.
    + intros (Hg & Hh & -> & Hcs). by_outcomes unicode_ToUpper s I;
        first [assumption | congruence].
  - split.
    + intros (a & b & cc & E). by_outcomes unicode_ToUpper s E;
        match goal with
        | H : Returned (None, Some (errLength _ _ _))
              = Returned (None, Some (errLength _ _ _)) |- _ =>
          repeat split; try assumption; eauto
        | H : Returned _ = Returned _ |- _ => results_clash H
        end.
    + intros (Hg & Hh & cs & Hcs & Hl). by_outcomes unicode_ToUpper s I;
        same_settings; first [eauto 6; fail | congruence].
  - intros cs Hg Hh Hcs Hl. by_outcomes unicode_ToUpper s I;
      same_settings; first [assumption | congruence].
Qed.

(** X4.  [NewIBAN] reports a BBAN that is not formatted according to the
    country specification exactly when the earlier checks pass and the
    BBAN is not exactly what the country's layout describes, and incorrect
    check digits exactly when, that far being right, the remainder modulo
    97 is not 1. *)
Theorem NewIBAN_bban_and_checksum_errors (s : gostring) :
  (NewIBAN unicode_ToUpper s = Returned (None, Some errBbanFormat)
   <-> exists cs layout,
         regexp.MatchString_gate (normalized unicode_ToUpper s) = true
         /\ header_ok (normalized unicode_ToUpper s) = true
         /\ countries !! take 2 (normalized unicode_ToUpper s) = Some cs
         /\ len (normalized unicode_ToUpper s) = Length cs
         /\ spec_layout (Format cs) = Some layout
         /\ ~ spec_exact layout (drop 4 (normalized unicode_ToUpper s)))
  /\ (NewIBAN unicode_ToUpper s = Returned (None, Some errIncorrectCheckDigits)
      <-> exists cs layout,
            regexp.MatchString_gate (normalized unicode_ToUpper s) = true
            /\ header_ok (normalized unicode_ToUpper s) = true
            /\ countries !! take 2 (normalized unicode_ToUpper s) = Some cs
            /\ len (normalized unicode_ToUpper s) = Length cs
            /\ spec_layout (Format cs) = Some layout
            /\ spec_exact layout (drop 4 (normalized unicode_ToUpper s))
            /\ spec_numeral (normalized unicode_ToUpper s) mod 97 <> 1)
  /\ (forall e,
        NewIBAN unicode_ToUpper s
        <> Returned (None, Some (errFailedBban e)))
  /\ NewIBAN unicode_ToUpper s <> Returned (None, Some errCheckDigitsFailed).
Proof.
  split; [|split; [|split]].
  - split.
    + intros E. by_outcomes unicode_ToUpper s E;
        match goal with
        | H : Returned (None, Some errBbanFormat)
              = Returned (None, Some errBbanFormat) |- _ => eauto 10
        | H : Returned _ = Returned _ |- _ => results_clash H
        end.
    + intros (cs & layout & Hg & Hh & Hcs & Hl & Hlay & Hex).
      by_outcomes unicode_ToUpper s I; same_settings;
        first [assumption | congruence | tauto].
  - split.
    + intros E. by_outcomes unicode_ToUpper s E;
        match goal with
        | H : Returned (None, Some errIncorrectCheckDigits)
              = Returned (None, Some errIncorrectCheckDigits) |- _ => eauto 12
        | H : Returned _ = Returned _ |- _ => results_clash H
        end.
    + intros (cs & layout & Hg & Hh & Hcs & Hl & Hlay & Hex & Hr).
      by_outcomes unicode_ToUpper s I; same_settings;
        first [assumption | congruence | tauto].
  - intros e E. by_outcomes unicode_ToUpper s E;
      match goal with
      | H : Returned _ = Returned _ |- _ =>
        unfold errFailedBban in H; results_clash H
      end.
  - intros E. by_outcomes unicode_ToUpper s E;
      match goal with
      | H : Returned _ = Returned _ |- _ => results_clash H
      end.
Qed.

(** X5.  The value [NewIBAN] returns has a code of [[0-9A-Z]] that is its
    country code, two upper-case letters that are a key of the table, then
    its check digits, two digits, then its BBAN; its settings are the
    table's entry for the country code; the code has the entry's [Length],
    which is between 15 and 32. *)
Theorem NewIBAN_value_invariants (s : gostring) (i : IBAN) :
  NewIBAN unicode_ToUpper s = Returned (Some i, None) ->
  exists cs,
    countrySettings i = Some cs
    /\ countries !! countryCode i = Some cs
    /\ code i = countryCode i ++ checkDigits i ++ bban i
    /\ regexp.MatchString_gate (code i) = true
    /\ length (countryCode i) = 2%nat
    /\ forallb (spec_in_class upper_letter) (countryCode i) = true
    /\ length (checkDigits i) = 2%nat
    /\ forallb is_digit (checkDigits i) = true
    /\ len (code i) = Length cs
    /\ len (bban i) = Length cs - 4
    /\ 15 <= len (code i) <= 32.
Proof.
  intros E. by_outcomes unicode_ToUpper s E;
    match goal with
    | H : Returned (Some _, None) = Returned (Some _, None) |- _ =>
      injection H as ->
    | H : Returned _ = Returned _ |- _ => results_clash H
    end.
  match goal with
  | Hcs : countries !! _ = Some ?cs |- _ =>
    exists cs; pose proof Hcs as Hin;
    apply countries_lookup, list_elem_of_In in Hin
  end.
  assert (Hall : forallb entry_key_and_length countries_entries = true)
    by (vm_compute; reflexivity).
  rewrite forallb_forall in Hall. specialize (Hall _ Hin). clear Hin.
  unfold entry_key_and_length in Hall. cbn [fst snd] in Hall.
  match goal with
  | Hh : header_ok _ = true |- _ =>
    destruct (header_ok_shape _ Hh) as (c0 & c1 & c2 & c3 & t & Hn);
    rewrite Hn in *; cbn [header_ok] in Hh;
    apply andb_prop in Hh as [[_ Hd2]%andb_prop Hd3]
  end.
  cbn [built code countryCode checkDigits bban countrySettings take drop
       app length forallb] in *.
  apply andb_prop in Hall as [[[Hk0 Hk1]%andb_prop H15]%andb_prop H32].
  unfold len in *. cbn [length] in *. rewrite ?drop_0 in *.
  rewrite Hk0, Hk1, Hd2, Hd3.
  repeat split; try assumption; try reflexivity; lia.
Qed.

End NewIBAN_outcome_properties.

(** ** The display form, position by position *)

Lemma spec_display_length (s : gostring) :
  length (spec_display s) = (length s + (length s - 1) / 4)%nat.
Proof.
  induction s as [s Hs|s Hs IH] using group_ind.
  - rewrite spec_display_short by exact Hs.
    zify. Z.to_euclidean_division_equations. lia.
  - rewrite (spec_display_long s Hs), !length_app, IH, length_take, length_drop.
    change (length (str " ")) with 1%nat.
    zify. Z.to_euclidean_division_equations. lia.
Qed.

(** In the display form of a string without spaces, the spaces are at the
    positions 4, 9, 14, ... and nowhere else. *)
Lemma spec_display_spaces (s : gostring) (k : nat) :
  Forall (fun c => c <> " "%char) s ->
  spec_display s !! k = Some " "%char <->
  (k < length (spec_display s))%nat /\ (k mod 5 = 4)%nat.
Proof.
  revert k. induction s as [s Hs|s Hs IH] using group_ind; intros k Hns.
  - rewrite spec_display_short by exact Hs. split.
    + intros Hk. exfalso. rewrite Forall_forall in Hns.
      apply (Hns " "%char); [|reflexivity].
      eapply list_elem_of_lookup_2. exact Hk.
    + intros [Hk Hm]. exfalso. zify. Z.to_euclidean_division_equations. lia.
  - assert (Hdrop : Forall (fun c => c <> " "%char) (drop 4 s))
      by (rewrite <- (take_drop 4 s) in Hns; now apply Forall_app in Hns).
    assert (Htake : Forall (fun c => c <> " "%char) (take 4 s))
      by (rewrite <- (take_drop 4 s) in Hns; now apply Forall_app in Hns).
    assert (Hl4 : length (take 4 s) = 4%nat) by (rewrite length_take; lia).
    rewrite (spec_display_long s Hs), !length_app, Hl4.
    change (length (str " ")) with 1%nat.
    destruct (decide (k < 4)%nat) as [Hk|Hk].
    + rewrite lookup_app_l by lia. split.
      * intros Hin. exfalso. rewrite Forall_forall in Htake.
        apply (Htake " "%char); [|reflexivity].
        eapply list_elem_of_lookup_2. exact Hin.
      * intros [_ Hm]. exfalso. zify. Z.to_euclidean_division_equations. lia.
    + rewrite lookup_app_r by lia. rewrite Hl4.
      destruct (decide (k = 4)%nat) as [->|Hk4].
      * cbn. split; [intros _; split; [lia|reflexivity]|reflexivity].
      * replace (k - 4)%nat with (S (k - 5)) by lia. cbn [str app lookup].
        change (str " " ++ spec_display (drop 4 s))
          with (" "%char :: spec_display (drop 4 s)).
        rewrite lookup_cons_ne_0 by lia. cbn [Nat.pred].
        rewrite (IH (k - 5)%nat Hdrop). split; intros [H1 H2]; split;
          try lia; zify; Z.to_euclidean_division_equations; lia.
Qed.

Lemma gate_no_space (s : gostring) :
  regexp.MatchString_gate s = true -> Forall (fun c => c <> " "%char) s.
Proof.
  unfold regexp.MatchString_gate. induction s as [|c t IH]; [constructor|].
  cbn [forallb]. intros [Hc Ht]%andb_prop. constructor; [|now apply IH].
  now apply upper_alnum_not_space.
Qed.

(** ** Letter case and spaces in the input *)

Lemma upperByte_fixed (s : gostring) :
  strings.hasLower s = false -> map strings.upperByte s = s.
Proof.
  unfold strings.hasLower. induction s as [|c t IH]; [reflexivity|].
  cbn [existsb map]. intros [Hc Ht]%orb_false_elim.
  unfold strings.upperByte at 1. now rewrite Hc, IH.
Qed.

(** On ASCII text [ToUpper] raises each byte on its own. *)
Lemma ToUpper_ascii (f : Z -> Z) (s : gostring) :
  strings.isASCII s = true -> strings.ToUpper f s = map strings.upperByte s.
Proof.
  intros H. unfold strings.ToUpper. rewrite H.
  destruct (strings.hasLower s) eqn:Hl; [reflexivity|].
  cbn [negb]. now rewrite upperByte_fixed.
Qed.

Lemma isASCII_RemoveSpaces (s : gostring) :
  strings.isASCII s = true -> strings.isASCII (strings.RemoveSpaces s) = true.
Proof.
  unfold strings.isASCII, strings.RemoveSpaces.
  induction s as [|c t IH]; [reflexivity|]. cbn [forallb].
  intros [Hc Ht]%andb_prop. destruct (decide (c <> " "%char)) as [Hs|Hs].
  - rewrite filter_cons_True by exact Hs. cbn [forallb]. now rewrite Hc, IH.
  - rewrite filter_cons_False by exact Hs. now apply IH.
Qed.

Section NewIBAN_input_properties.

Variable unicode_ToUpper : Z -> Z.

(** X6.  The display form of a value [NewIBAN] returned is itself an input
    [NewIBAN] accepts, and gives the same value back. *)
Theorem NewIBAN_of_PrintCode (s : gostring) (i : IBAN) :
  NewIBAN unicode_ToUpper s = Returned (Some i, None) ->
  NewIBAN unicode_ToUpper (PrintCode i) = Returned (Some i, None).
Proof.
  intros E.
  destruct (NewIBAN_cases unicode_ToUpper s) as [[e He]|(cs & He & Hg & _)];
    rewrite He in E; [discriminate|]. injection E as <-.
  unfold PrintCode. cbn [printCode built]. rewrite <- He.
  apply NewIBAN_same_normalized. unfold normalized at 1.
  rewrite RemoveSpaces_display.
  apply (normalized_fixed unicode_ToUpper _ Hg).
Qed.

(** X7.  The display form of a value [NewIBAN] returned has one space after
    every group of four characters but the last: its length is the code's
    plus a quarter, rounded down, of the code's length less one, and its
    spaces are the bytes at the positions 4, 9, 14, ... *)
Theorem PrintCode_shape (s : gostring) (i : IBAN) :
  NewIBAN unicode_ToUpper s = Returned (Some i, None) ->
  length (PrintCode i)
  = (length (code i) + (length (code i) - 1) / 4)%nat
  /\ forall k,
       PrintCode i !! k = Some " "%char <->
       (k < length (PrintCode i))%nat /\ (k mod 5 = 4)%nat.
Proof.
  intros E.
  destruct (NewIBAN_cases unicode_ToUpper s) as [[e He]|(cs & He & Hg & _)];
    rewrite He in E; [discriminate|]. injection E as <-.
  unfold PrintCode. cbn [printCode code built]. split.
  - apply spec_display_length.
  - intros k. apply spec_display_spaces, gate_no_space, Hg.
Qed.

(** X8.  Two ASCII inputs that are the same once their spaces are removed
    and their letters [a]..[z] raised give the same result: spaces, where
    ever they are, and the case of letters do not matter. *)
Theorem NewIBAN_case_and_spaces (s1 s2 : gostring) :
  strings.isASCII s1 = true ->
  strings.isASCII s2 = true ->
  map strings.upperByte (strings.RemoveSpaces s1)
  = map strings.upperByte (strings.RemoveSpaces s2) ->
  NewIBAN unicode_ToUpper s1 = NewIBAN unicode_ToUpper s2.
Proof.
  intros H1 H2 H. apply NewIBAN_same_normalized. unfold normalized.
  rewrite !ToUpper_ascii by now apply isASCII_RemoveSpaces. exact H.
Qed.

End NewIBAN_input_properties.

(** The statement at [GB82 WEST 1234 5698 7654 32]. *)
Lemma NewIBAN_of_PrintCode_witness :
  NewIBAN (fun r => r) (str "GB82WEST12345698765432")
  = Returned (Some iban_GB82, None)
  /\ NewIBAN (fun r => r) (PrintCode iban_GB82)
     = Returned (Some iban_GB82, None).
Proof.
  assert (H : NewIBAN (fun r => r) (str "GB82WEST12345698765432")
              = Returned (Some iban_GB82, None)) by (vm_compute; reflexivity).
  split; [exact H|]. exact (NewIBAN_of_PrintCode _ _ _ H).
Defined.

(** The statement at [GB82 WEST 1234 5698 7654 32]: 27 bytes for a code of
    22. *)
Lemma PrintCode_shape_witness :
  NewIBAN (fun r => r) (str "GB82WEST12345698765432")
  = Returned (Some iban_GB82, None)
  /\ length (PrintCode iban_GB82) = 27%nat.
Proof.
  assert (H : NewIBAN (fun r => r) (str "GB82WEST12345698765432")
              = Returned (Some iban_GB82, None)) by (vm_compute; reflexivity).
  split; [exact H|]. exact (proj1 (PrintCode_shape _ _ _ H)).
Defined.

(** The statement at two spellings of one code. *)
Lemma NewIBAN_case_and_spaces_witness :
  strings.isASCII (str "gb82 west 1234 5698 7654 32") = true
  /\ strings.isASCII (str "GB82WEST 12345698 765432") = true
  /\ NewIBAN (fun r => r) (str "gb82 west 1234 5698 7654 32")
     = NewIBAN (fun r => r) (str "GB82WEST 12345698 765432").
Proof.
  split; [reflexivity|]. split; [reflexivity|].
  apply NewIBAN_case_and_spaces; reflexivity.
Defined.

(** ** [Validate] and the two checks on values built by hand *)

(** X9.  [Validate] panics on a value without country settings, such as the
    zero value, with a nil dereference, and on a value with settings whose
    code has fewer than four bytes, with a slice out of range.  On any other
    value both checks return and [Validate] returns an error whose message
    is their messages one after the other, nothing between them. *)
Theorem Validate_returns_or_panics (i : IBAN) :
  (countrySettings i = None -> Validate i = Panicked NilPointerDereference)
  /\ (countrySettings i <> None -> (length (code i) < 4)%nat ->
      Validate i = Panicked SliceBoundsOutOfRange)
  /\ (countrySettings i <> None -> (4 <= length (code i))%nat ->
      exists e1 e2,
        validateBban i = Returned e1
        /\ validateCheckDigits i = Returned e2
        /\ Validate i = Returned (Some (default [] e1 ++ default [] e2))).
Proof.
  unfold Validate. split; [|split].
  - intros H. unfold validateBban. now rewrite H.
  - intros H Hlen. destruct (countrySettings i) as [cs|] eqn:Hcs; [|easy].
    rewrite (validateBban_unfold i cs Hcs). cbn [mbind outcome_bind].
    unfold validateCheckDigits, slice_from, slice.
    now rewrite decide_False by lia.
  - intros H Hlen. destruct (countrySettings i) as [cs|] eqn:Hcs; [|easy].
    rewrite (validateBban_unfold i cs Hcs), (validateCheckDigits_unfold i Hlen).
    cbn [mbind outcome_bind].
    destruct (regexp.MatchString _ _), (big.SetString10 _) as [v|];
      [destruct (negb _)| |destruct (negb _)|];
      eexists _, _; repeat split.
Qed.

(** X14.  What [validateBban] accepts it still accepts with bytes added
    before and after the BBAN, whatever the descriptor: its pattern is not
    tied to the ends of the text. *)
Theorem validateBban_accepts_longer (i i' : IBAN) (pre post : gostring) :
  countrySettings i' = countrySettings i ->
  bban i' = pre ++ bban i ++ post ->
  validateBban i = Returned None ->
  validateBban i' = Returned None.
Proof.
  intros Hcs Hb. destruct (countrySettings i) as [cs|] eqn:Hi.
  2:{ unfold validateBban. rewrite Hi. discriminate. }
  rewrite (validateBban_unfold i cs Hi), (validateBban_unfold i' cs Hcs), Hb.
  destruct (regexp.MatchString (compiled (Format cs)) (bban i)) eqn:Hm;
    [intros _|discriminate].
  apply MatchString_spec in Hm as (pre0 & rest & -> & Hh).
  apply match_here_spec in Hh as (segs & post0 & -> & Hp).
  assert (regexp.MatchString (compiled (Format cs))
            (pre ++ (pre0 ++ concat segs ++ post0) ++ post) = true) as ->;
    [|reflexivity].
  apply MatchString_spec. exists (pre ++ pre0), (concat segs ++ post0 ++ post).
  split; [now rewrite <- !app_assoc|].
  apply match_here_spec. now exists segs, (post0 ++ post).
Qed.

(** The statement at the BBAN of [GB82 WEST 1234 5698 7654 32] with one
    digit added. *)
Lemma validateBban_accepts_longer_witness :
  countrySettings iban_GB_long = countrySettings iban_GB82
  /\ bban iban_GB_long = [] ++ bban iban_GB82 ++ str "1"
  /\ validateBban iban_GB82 = Returned None
  /\ validateBban iban_GB_long = Returned None.
Proof.
  assert (H : validateBban iban_GB82 = Returned None) by (vm_compute; reflexivity).
  split; [reflexivity|]. split; [reflexivity|]. split; [exact H|].
  exact (validateBban_accepts_longer iban_GB82 iban_GB_long [] (str "1")
           eq_refl eq_refl H).
Defined.

(** ** What the check digits catch *)

Lemma spec_value_from (ds : list Z) (acc : Z) :
  fold_left (fun a d => 10 * a + d) ds acc
  = acc * 10 ^ Z.of_nat (length ds) + spec_value ds.
Proof.
  unfold spec_value. revert acc. induction ds as [|d ds IH]; intros acc.
  - cbn. lia.
  - cbn [fold_left length]. rewrite (IH (10 * acc + d)), (IH (10 * 0 + d)).
    rewrite Nat2Z.inj_succ, Z.pow_succ_r by lia. ring.
Qed.

(** The value of a numeral in three parts. *)
Lemma spec_value_parts (a m b : list Z) :
  spec_value (a ++ m ++ b)
  = (spec_value a * 10 ^ Z.of_nat (length m) + spec_value m)
    * 10 ^ Z.of_nat (length b) + spec_value b.
Proof.
  unfold spec_value at 1. rewrite !fold_left_app.
  fold (spec_value a). rewrite (spec_value_from b), (spec_value_from m).
  reflexivity.
Qed.

(** 97 and 10 have no common factor: a multiple of 97 stays one without its
    powers of 10. *)
Lemma divide_97_without_tens (D : Z) (m : nat) :
  (97 | D * 10 ^ Z.of_nat m) -> (97 | D).
Proof.
  induction m as [|m IH]; intros H.
  - now rewrite Z.mul_1_r in H.
  - apply IH. rewrite Nat2Z.inj_succ, Z.pow_succ_r in H by lia.
    apply (Z.gauss 97 10); [|reflexivity].
    now replace (10 * (D * 10 ^ Z.of_nat m))
      with (D * (10 * 10 ^ Z.of_nat m)) by ring.
Qed.

(** Two numerals that differ in a middle part of the same length, by less
    than 97, do not both leave remainder 1. *)
Lemma remainder_differs (a m m' b : list Z) :
  length m = length m' ->
  0 < Z.abs (spec_value m - spec_value m') < 97 ->
  spec_value (a ++ m ++ b) mod 97 = 1 ->
  spec_value (a ++ m' ++ b) mod 97 <> 1.
Proof.
  intros Hl HD H1 H2. rewrite !spec_value_parts, <- Hl in *.
  set (A := spec_value a * 10 ^ Z.of_nat (length m)) in *.
  set (T := 10 ^ Z.of_nat (length b)) in *.
  assert (Hdiv : (97 | (spec_value m - spec_value m') * T)).
  { exists (((A + spec_value m) * T + spec_value b) / 97
            - ((A + spec_value m') * T + spec_value b) / 97).
    pose proof (Z.div_mod ((A + spec_value m) * T + spec_value b) 97).
    pose proof (Z.div_mod ((A + spec_value m') * T + spec_value b) 97).
    lia. }
  apply divide_97_without_tens in Hdiv as [q Hq]. lia.
Qed.

Lemma digit_is_upper_alnum (d : ascii) :
  is_digit d = true -> regexp.is_upper_alnum d = true.
Proof. unfold is_digit, regexp.is_upper_alnum. now intros ->. Qed.

Lemma spec_digits_of_digit (d : ascii) :
  is_digit d = true -> spec_digits_of d = [digit_val d].
Proof.
  unfold is_digit, spec_digits_of, digit_val, between. intros H.
  destruct ((65 <=? byte_val d) && (byte_val d <=? 90)) eqn:E; [lia|reflexivity].
Qed.

Lemma byte_val_inj (a b : ascii) : byte_val a = byte_val b -> a = b.
Proof.
  unfold byte_val. intros H%N2Z.inj.
  now rewrite <- (ascii_N_embedding a), <- (ascii_N_embedding b), H.
Qed.

(** The numeral of a code that, rearranged, is [u ++ m ++ v] with [m] made
    of digits. *)
Lemma spec_numeral_parts (c u m v : gostring) :
  spec_rearranged c = u ++ m ++ v ->
  forallb is_digit m = true ->
  spec_numeral c
  = spec_value (flat_map spec_digits_of u ++ map digit_val m
                ++ flat_map spec_digits_of v).
Proof.
  intros Hr Hm. unfold spec_numeral. rewrite Hr, !flat_map_app. do 3 f_equal.
  clear Hr. induction m as [|d m IH]; [reflexivity|].
  cbn [forallb] in Hm. apply andb_prop in Hm as [Hd Hm].
  cbn [flat_map map]. rewrite (spec_digits_of_digit d Hd), (IH Hm).
  reflexivity.
Qed.

(** On a code of [[0-9A-Z]], a run of digits replaced by another run of as
    many digits, whose value differs by less than 97, turns a code that
    passes the check into one that fails it.  The run is given by its place
    in the rearranged code. *)
Lemma check_digits_catch (i i' : IBAN) (u m m' v : gostring) :
  (4 <= length (code i))%nat -> (4 <= length (code i'))%nat ->
  regexp.MatchString_gate (code i) = true ->
  spec_rearranged (code i) = u ++ m ++ v ->
  spec_rearranged (code i') = u ++ m' ++ v ->
  forallb is_digit m = true -> forallb is_digit m' = true ->
  length m = length m' ->
  0 < Z.abs (spec_value (map digit_val m) - spec_value (map digit_val m')) < 97 ->
  validateCheckDigits i = Returned None ->
  validateCheckDigits i' = Returned (Some errIncorrectCheckDigits).
Proof.
  intros Hl Hl' Hg Hr Hr' Hm Hm' Hlen HD.
  assert (Hg' : regexp.MatchString_gate (code i') = true).
  { assert (Hgr : regexp.MatchString_gate (spec_rearranged (code i)) = true).
    { unfold spec_rearranged. rewrite gate_app.
      destruct (gate_take_drop 4 _ Hg) as [-> ->]. reflexivity. }
    assert (Hgr' : regexp.MatchString_gate (spec_rearranged (code i')) = true).
    { rewrite Hr, !gate_app in Hgr. rewrite Hr', !gate_app.
      apply andb_prop in Hgr as [-> [_ ->]%andb_prop].
      enough (regexp.MatchString_gate m' = true) as -> by reflexivity.
      clear -Hm'. unfold regexp.MatchString_gate.
      induction m' as [|d m' IH]; [reflexivity|]. cbn [forallb] in *.
      apply andb_prop in Hm' as [Hd Hm']. now rewrite digit_is_upper_alnum, IH. }
    unfold spec_rearranged in Hgr'. rewrite gate_app in Hgr'.
    apply andb_prop in Hgr' as [Hd Ht].
    rewrite <- (take_drop 4 (code i')), gate_app, Ht, Hd. reflexivity. }
  rewrite (validateCheckDigits_decides i Hl Hg),
    (validateCheckDigits_decides i' Hl' Hg').
  rewrite (spec_numeral_parts _ _ _ _ Hr Hm), (spec_numeral_parts _ _ _ _ Hr' Hm').
  destruct (Z.eqb_spec (spec_value (flat_map spec_digits_of u ++ map digit_val m
              ++ flat_map spec_digits_of v) mod 97) 1) as [H1|H1];
    [intros _|discriminate].
  apply (remainder_differs _ _ (map digit_val m')) in H1;
    [|now rewrite !length_map|exact HD].
  now destruct (Z.eqb_spec (spec_value (flat_map spec_digits_of u
              ++ map digit_val m' ++ flat_map spec_digits_of v) mod 97) 1).
Qed.

(** Replacing the byte after [pre] in a code of four bytes or more replaces
    one byte of the rearranged code, at a place that does not depend on the
    byte. *)
Lemma rearranged_one (pre post : gostring) :
  (4 <= length pre + 1 + length post)%nat ->
  exists u v, forall x, spec_rearranged (pre ++ [x] ++ post) = u ++ [x] ++ v.
Proof.
  intros H. unfold spec_rearranged.
  destruct pre as [|p0 [|p1 [|p2 [|p3 pre]]]].
  - destruct post as [|q0 [|q1 [|q2 post]]]; cbn in H; try lia.
    exists post, [q0; q1; q2]. reflexivity.
  - destruct post as [|q0 [|q1 post]]; cbn in H; try lia.
    exists (post ++ [p0]), [q0; q1]. intros x. cbn. rewrite ?drop_0, ?take_0, ?app_nil_r, <- ?app_assoc. reflexivity.
  - destruct post as [|q0 post]; cbn in H; try lia.
    exists (post ++ [p0; p1]), [q0]. intros x. cbn. rewrite ?drop_0, ?take_0, ?app_nil_r, <- ?app_assoc. reflexivity.
  - exists (post ++ [p0; p1; p2]), []. intros x. cbn. rewrite ?drop_0, ?take_0, ?app_nil_r, <- ?app_assoc. reflexivity.
  - exists pre, (post ++ [p0; p1; p2; p3]). intros x. cbn.
    rewrite ?drop_0, ?take_0, ?app_nil_r, <- ?app_assoc. reflexivity.
Qed.

(** Two neighbours past the first four bytes are neighbours in the
    rearranged code. *)
Lemma rearranged_two (pre post : gostring) :
  (4 <= length pre)%nat ->
  exists u v, forall x y,
    spec_rearranged (pre ++ [x; y] ++ post) = u ++ [x; y] ++ v.
Proof.
  intros H. unfold spec_rearranged.
  destruct pre as [|p0 [|p1 [|p2 [|p3 pre]]]]; cbn in H; try lia.
  exists pre, (post ++ [p0; p1; p2; p3]). intros x y. cbn.
  rewrite ?drop_0, ?take_0, ?app_nil_r, <- ?app_assoc. reflexivity.
Qed.

Lemma digits_differ (a b : ascii) :
  is_digit a = true -> is_digit b = true -> a <> b ->
  0 <= digit_val a <= 9 /\ 0 <= digit_val b <= 9 /\ digit_val a <> digit_val b.
Proof.
  intros Ha Hb Hab. pose proof (is_digit_val a Ha). pose proof (is_digit_val b Hb).
  repeat split; try lia. intros E. apply Hab, byte_val_inj.
  unfold digit_val in E. lia.
Qed.

(** One digit of a code that passes, replaced by another digit; the form
    used for [NewIBAN] below. *)
Lemma digit_change_caught (i i' : IBAN) (pre post : gostring) (d d' : ascii) :
  code i = pre ++ [d] ++ post ->
  code i' = pre ++ [d'] ++ post ->
  (4 <= length (code i))%nat ->
  regexp.MatchString_gate (code i) = true ->
  is_digit d = true -> is_digit d' = true -> d <> d' ->
  validateCheckDigits i = Returned None ->
  validateCheckDigits i' = Returned (Some errIncorrectCheckDigits).
Proof.
  intros Hc Hc' Hl Hg Hd Hd' Hne.
  assert (Hlen : (4 <= length pre + 1 + length post)%nat)
    by (rewrite Hc, !length_app in Hl; cbn in Hl; lia).
  destruct (rearranged_one pre post Hlen) as (u & v & Hr).
  destruct (digits_differ d d' Hd Hd' Hne) as (H1 & H2 & H3).
  apply (check_digits_catch i i' u [d] [d'] v); try assumption.
  - rewrite Hc', !length_app. cbn. lia.
  - rewrite Hc. apply Hr.
  - rewrite Hc'. apply Hr.
  - cbn. now rewrite Hd.
  - cbn. now rewrite Hd'.
  - reflexivity.
  - unfold spec_value. cbn [map fold_left]. lia.
Qed.

(** Two different neighbouring digits of the BBAN of a code that passes,
    exchanged; the form used for [NewIBAN] below. *)
Lemma digit_swap_caught (i i' : IBAN) (pre post : gostring) (a b : ascii) :
  code i = pre ++ [a; b] ++ post ->
  code i' = pre ++ [b; a] ++ post ->
  (4 <= length pre)%nat ->
  regexp.MatchString_gate (code i) = true ->
  is_digit a = true -> is_digit b = true -> a <> b ->
  validateCheckDigits i = Returned None ->
  validateCheckDigits i' = Returned (Some errIncorrectCheckDigits).
Proof.
  intros Hc Hc' Hl Hg Ha Hb Hne.
  destruct (rearranged_two pre post Hl) as (u & v & Hr).
  destruct (digits_differ a b Ha Hb Hne) as (H1 & H2 & H3).
  apply (check_digits_catch i i' u [a; b] [b; a] v); try assumption.
  - rewrite Hc, !length_app. lia.
  - rewrite Hc', !length_app. lia.
  - rewrite Hc. apply Hr.
  - rewrite Hc'. apply Hr.
  - cbn. now rewrite Ha, Hb.
  - cbn. now rewrite Ha, Hb.
  - reflexivity.
  - unfold spec_value. cbn [map fold_left]. lia.
Qed.

(** X10.  On a code of [[0-9A-Z]] that passes the check of the check
    digits, replacing any one digit by a different digit gives a code that
    fails it, with "incorrect check digits". *)
Theorem validateCheckDigits_catches_digit_change
    (i i' : IBAN) (pre post : gostring) (d d' : ascii) :
  code i = pre ++ [d] ++ post ->
  code i' = pre ++ [d'] ++ post ->
  (4 <= length (code i))%nat ->
  regexp.MatchString_gate (code i) = true ->
  is_digit d = true -> is_digit d' = true -> d <> d' ->
  validateCheckDigits i = Returned None ->
  validateCheckDigits i' = Returned (Some errIncorrectCheckDigits).
Proof.
  intros Hc Hc' Hl Hg Hd Hd' Hne.
  assert (Hlen : (4 <= length pre + 1 + length post)%nat)
    by (rewrite Hc, !length_app in Hl; cbn in Hl; lia).
  destruct (rearranged_one pre post Hlen) as (u & v & Hr).
  destruct (digits_differ d d' Hd Hd' Hne) as (H1 & H2 & H3).
  apply (check_digits_catch i i' u [d] [d'] v); try assumption.
  - rewrite Hc', !length_app. cbn. lia.
  - rewrite Hc. apply Hr.
  - rewrite Hc'. apply Hr.
  - cbn. now rewrite Hd.
  - cbn. now rewrite Hd'.
  - reflexivity.
  - unfold spec_value. cbn [map fold_left]. lia.
Qed.

(** The statement at [GB82WEST12345698765432] and its last digit. *)
Lemma validateCheckDigits_catches_digit_change_witness :
  validateCheckDigits iban_GB82 = Returned None
  /\ validateCheckDigits iban_GB82_altered
     = Returned (Some errIncorrectCheckDigits).
Proof.
  assert (H : validateCheckDigits iban_GB82 = Returned None)
    by (vm_compute; reflexivity).
  split; [exact H|].
  apply (validateCheckDigits_catches_digit_change iban_GB82 iban_GB82_altered
           (str "GB82WEST1234569876543") [] "2" "3");
    first [reflexivity | exact H | discriminate | (cbn; lia)].
Defined.

(** X11.  On a code of [[0-9A-Z]] that passes the check of the check
    digits, exchanging two different neighbouring digits past the first
    four characters gives a code that fails it, with "incorrect check
    digits". *)
Theorem validateCheckDigits_catches_digit_swap
    (i i' : IBAN) (pre post : gostring) (a b : ascii) :
  code i = pre ++ [a; b] ++ post ->
  code i' = pre ++ [b; a] ++ post ->
  (4 <= length pre)%nat ->
  regexp.MatchString_gate (code i) = true ->
  is_digit a = true -> is_digit b = true -> a <> b ->
  validateCheckDigits i = Returned None ->
  validateCheckDigits i' = Returned (Some errIncorrectCheckDigits).
Proof.
  intros Hc Hc' Hl Hg Ha Hb Hne.
  destruct (rearranged_two pre post Hl) as (u & v & Hr).
  destruct (digits_differ a b Ha Hb Hne) as (H1 & H2 & H3).
  apply (check_digits_catch i i' u [a; b] [b; a] v); try assumption.
  - rewrite Hc, !length_app. lia.
  - rewrite Hc', !length_app. lia.
  - rewrite Hc. apply Hr.
  - rewrite Hc'. apply Hr.
  - cbn. now rewrite Ha, Hb.
  - cbn. now rewrite Ha, Hb.
  - reflexivity.
  - unfold spec_value. cbn [map fold_left]. lia.
Qed.

(** The statement at [GB82WEST12345698765432] and its last two digits. *)
Lemma validateCheckDigits_catches_digit_swap_witness :
  validateCheckDigits iban_GB82 = Returned None
  /\ validateCheckDigits iban_GB82_swapped
     = Returned (Some errIncorrectCheckDigits).
Proof.
  assert (H : validateCheckDigits iban_GB82 = Returned None)
    by (vm_compute; reflexivity).
  split; [exact H|].
  apply (validateCheckDigits_catches_digit_swap iban_GB82 iban_GB82_swapped
           (str "GB82WEST123456987654") [] "3" "2");
    first [reflexivity | exact H | discriminate | (cbn; lia)].
Defined.

Lemma gate_replace (pre m m' post : gostring) :
  regexp.MatchString_gate (pre ++ m ++ post) = true ->
  forallb is_digit m' = true ->
  regexp.MatchString_gate (pre ++ m' ++ post) = true.
Proof.
  rewrite !gate_app. intros [-> [_ ->]%andb_prop]%andb_prop Hm.
  enough (regexp.MatchString_gate m' = true) as -> by reflexivity.
  unfold regexp.MatchString_gate. induction m' as [|d m' IH]; [reflexivity|].
  cbn [forallb] in *. apply andb_prop in Hm as [Hd Hm].
  now rewrite digit_is_upper_alnum, IH.
Qed.

Section NewIBAN_typing_errors.

Variable unicode_ToUpper : Z -> Z.

(** A code [c'] of [[0-9A-Z]] that fails the check of the check digits
    whatever the settings is refused by [NewIBAN]. *)
Lemma NewIBAN_refuses (c' : gostring) :
  regexp.MatchString_gate c' = true ->
  (forall cs, validateCheckDigits (built c' cs) <> Returned None) ->
  exists e, NewIBAN unicode_ToUpper c' = Returned (None, Some e).
Proof.
  intros Hg Hv.
  destruct (NewIBAN_cases unicode_ToUpper c')
    as [He|(cs & _ & _ & _ & _ & _ & _ & Hc)]; [exact He|].
  rewrite (normalized_fixed unicode_ToUpper c' Hg) in Hc.
  now destruct (Hv cs).
Qed.

(** X12.  When [NewIBAN] accepts an input, it refuses the code of the value
    it returned with any one digit replaced by a different digit, and with
    any two different neighbouring digits of the BBAN exchanged. *)
Theorem NewIBAN_refuses_typing_errors (s : gostring) (i : IBAN) :
  NewIBAN unicode_ToUpper s = Returned (Some i, None) ->
  (forall pre post d d',
     code i = pre ++ [d] ++ post ->
     is_digit d = true -> is_digit d' = true -> d <> d' ->
     exists e,
       NewIBAN unicode_ToUpper (pre ++ [d'] ++ post) = Returned (None, Some e))
  /\ (forall pre post a b,
        code i = pre ++ [a; b] ++ post ->
        (4 <= length pre)%nat ->
        is_digit a = true -> is_digit b = true -> a <> b ->
        exists e,
          NewIBAN unicode_ToUpper (pre ++ [b; a] ++ post)
          = Returned (None, Some e)).
Proof.
  intros E.
  destruct (NewIBAN_cases unicode_ToUpper s)
    as [[e He]|(cs & He & Hg & _ & _ & Hlen & _ & Hc)];
    rewrite He in E; [discriminate|]. injection E as <-.
  cbn [code built]. split.
  - intros pre post d d' Hn Hd Hd' Hne. apply NewIBAN_refuses.
    + rewrite Hn in Hg. apply (gate_replace pre [d] [d'] post Hg).
      cbn. now rewrite Hd'.
    + intros cs' Hok.
      rewrite (digit_change_caught
                 (built (normalized unicode_ToUpper s) cs)
                 (built (pre ++ [d'] ++ post) cs') pre post d d') in Hok;
        first [discriminate Hok | assumption | reflexivity].
  - intros pre post a b Hn Hl Ha Hb Hne. apply NewIBAN_refuses.
    + rewrite Hn in Hg. apply (gate_replace pre [a; b] [b; a] post Hg).
      cbn. now rewrite Ha, Hb.
    + intros cs' Hok.
      rewrite (digit_swap_caught
                 (built (normalized unicode_ToUpper s) cs)
                 (built (pre ++ [b; a] ++ post) cs') pre post a b) in Hok;
        first [discriminate Hok | assumption | reflexivity].
Qed.

End NewIBAN_typing_errors.

(** The statement at [GB82 WEST 1234 5698 7654 32] and its last digit. *)
Lemma NewIBAN_refuses_typing_errors_witness :
  NewIBAN (fun r => r) (str "GB82 WEST 1234 5698 7654 32")
  = Returned (Some iban_GB82, None)
  /\ exists e,
       NewIBAN (fun r => r) (str "GB82WEST1234569876543" ++ ["3"%char] ++ [])
       = Returned (None, Some e).
Proof.
  assert (H : NewIBAN (fun r => r) (str "GB82 WEST 1234 5698 7654 32")
              = Returned (Some iban_GB82, None)) by (vm_compute; reflexivity).
  split; [exact H|].
  apply (proj1 (NewIBAN_refuses_typing_errors _ _ _ H) _ [] "2"%char "3"%char);
    first [reflexivity | discriminate].
Defined.

(** ** The branch of [validateCheckDigits] for a numeral that cannot be read *)

Lemma scan_decimal_refuses (s : gostring) (c : ascii) :
  c ∈ s -> is_digit c = false -> c <> "+"%char -> c <> "-"%char ->
  scan_decimal s = None.
Proof.
  intros Hin Hd Hp Hm. unfold scan_decimal.
  assert (Hbad : forall t, c ∈ t -> t <> [] /\ scan_digits 0 t = None).
  { intros t Ht. split; [intros ->; inversion Ht|].
    apply scan_digits_fails. apply not_true_is_false. intros Hall.
    rewrite forallb_forall in Hall. apply list_elem_of_In in Ht.
    rewrite (Hall c Ht) in Hd. discriminate. }
  destruct s as [|c0 t]; [inversion Hin|]. cbn [scan_sign].
  destruct (Ascii.eqb_spec c0 "-") as [->|Hc0m].
  { apply elem_of_cons in Hin as [Hc|Hin]; [congruence|].
    destruct (Hbad t Hin) as [Hne ->]. now destruct t. }
  destruct (Ascii.eqb_spec c0 "+") as [->|Hc0p].
  { apply elem_of_cons in Hin as [Hc|Hin]; [congruence|].
    destruct (Hbad t Hin) as [Hne ->]. now destruct t. }
  destruct (Hbad (c0 :: t) Hin) as [_ ->]. reflexivity.
Qed.

Lemma expand_ascii_other (c : ascii) :
  (byte_val c <? 128) = true -> regexp.is_upper_alnum c = false ->
  is_digit c = false /\ expand (byte_val c) = [c].
Proof.
  each_byte c; intros H1 H2; try discriminate H1; try discriminate H2;
    (split; reflexivity).
Qed.

(** X13.  On a value with an ASCII code of four bytes or more in which some
    byte is neither of [[0-9A-Z]] nor a sign, a lower-case letter for one,
    [validateCheckDigits] returns "IBAN check digits validation failed":
    big.Int cannot read the numeral. *)
Theorem validateCheckDigits_unreadable (i : IBAN) (c : ascii) :
  (4 <= length (code i))%nat ->
  strings.isASCII (code i) = true ->
  c ∈ code i ->
  regexp.is_upper_alnum c = false -> c <> "+"%char -> c <> "-"%char ->
  validateCheckDigits i = Returned (Some errCheckDigitsFailed).
Proof.
  intros Hlen Hascii Hin Hc Hp Hm.
  rewrite (validateCheckDigits_unfold i Hlen).
  set (r := drop 4 (code i) ++ take 4 (code i)).
  assert (Hr : c ∈ r).
  { subst r. rewrite <- (take_drop 4 (code i)) in Hin.
    apply elem_of_app in Hin. apply elem_of_app. tauto. }
  assert (Har : strings.isASCII r = true).
  { subst r. unfold strings.isASCII in *.
    rewrite <- (take_drop 4 (code i)), forallb_app in Hascii.
    apply andb_prop in Hascii as [Ht Hd]. now rewrite forallb_app, Hd, Ht. }
  assert (Hc128 : (byte_val c <? 128) = true).
  { unfold strings.isASCII in Hascii. rewrite forallb_forall in Hascii.
    apply Hascii, list_elem_of_In, Hin. }
  destruct (expand_ascii_other c Hc128 Hc) as [Hd He].
  unfold big.SetString10. rewrite (scan_decimal_refuses _ c); try assumption;
    [reflexivity|].
  rewrite expand_loop_flat_map, (range_of_ascii r Har).
  apply list_elem_of_In, in_flat_map. exists (byte_val c). split.
  - apply in_map, list_elem_of_In, Hr.
  - rewrite He. now left.
Qed.

(** The statement at the code [gb82west12345698765432]. *)
Lemma validateCheckDigits_unreadable_witness :
  "g"%char ∈ code iban_GB82_lower
  /\ validateCheckDigits iban_GB82_lower = Returned (Some errCheckDigitsFailed).
Proof.
  assert (H : "g"%char ∈ code iban_GB82_lower) by (cbn; left).
  split; [exact H|].
  apply (validateCheckDigits_unreadable iban_GB82_lower "g"%char);
    first [exact H | reflexivity | discriminate | (cbn; lia)].
Defined.

(** X15.  A plus sign as fifth byte of the code, ahead of characters of
    [[0-9A-Z]], goes unnoticed by [validateCheckDigits]: it comes first in
    the numeral, where big.Int reads it as the sign, and the result is the
    one for the code without it. *)
Theorem validateCheckDigits_plus_sign (i i' : IBAN) (h t : gostring) :
  length h = 4%nat ->
  code i = h ++ ["+"%char] ++ t ->
  code i' = h ++ t ->
  regexp.MatchString_gate (code i') = true ->
  validateCheckDigits i = validateCheckDigits i'.
Proof.
  intros Hh Hc Hc' Hg.
  assert (Hl' : (4 <= length (code i'))%nat) by (rewrite Hc', length_app; lia).
  assert (Hl : (4 <= length (code i))%nat) by (rewrite Hc, length_app; lia).
  rewrite (validateCheckDigits_unfold i Hl), (validateCheckDigits_unfold i' Hl').
  assert (Hd : forall x, drop 4 (h ++ x) = x)
    by (intros x; now apply drop_app_length').
  assert (Ht : forall x, take 4 (h ++ x) = h)
    by (intros x; now apply take_app_length').
  destruct (gate_take_drop 4 _ Hg) as [Hgh Hgt].
  rewrite Hc, Hc' in *. rewrite !Hd, !Ht in *.
  assert (Hgr : regexp.MatchString_gate (t ++ h) = true)
    by now rewrite gate_app, Hgh, Hgt.
  destruct (expand_loop_upper_alnum _ Hgr) as [Hdig _].
  assert (Hplus : expand_loop ((["+"%char] ++ t) ++ h)
                  = "+"%char :: expand_loop (t ++ h)).
  { rewrite !expand_loop_flat_map, !range_of_ascii.
    - reflexivity.
    - now apply gate_isASCII.
    - cbn. now apply gate_isASCII. }
  rewrite Hplus. unfold big.SetString10 in *.
  assert (Hsame : scan_decimal ("+"%char :: expand_loop (t ++ h))
                  = scan_decimal (expand_loop (t ++ h))).
  { destruct (expand_loop (t ++ h)) as [|d M]; [reflexivity|].
    pose proof Hdig as Hd0. cbn [forallb] in Hd0.
    apply andb_prop in Hd0 as [Hd0 _].
    unfold scan_decimal. rewrite (scan_sign_digit d M Hd0). reflexivity. }
  now rewrite Hsame.
Qed.

(** The statement at [GB82+WEST12345698765432], which passes the check. *)
Lemma validateCheckDigits_plus_sign_witness :
  validateCheckDigits iban_GB82_plus = validateCheckDigits iban_GB82
  /\ validateCheckDigits iban_GB82_plus = Returned None.
Proof.
  split; [|vm_compute; reflexivity].
  apply (validateCheckDigits_plus_sign iban_GB82_plus iban_GB82
           (str "GB82") (str "WEST12345698765432")); reflexivity.
Defined.

(** The statement of [NewIBAN_value_invariants] at
    [GB82 WEST 1234 5698 7654 32]. *)
Lemma NewIBAN_value_invariants_witness :
  NewIBAN (fun r => r) (str "GB82 WEST 1234 5698 7654 32")
  = Returned (Some iban_GB82, None)
  /\ exists cs,
       countrySettings iban_GB82 = Some cs
       /\ countries !! countryCode iban_GB82 = Some cs
       /\ code iban_GB82
          = countryCode iban_GB82 ++ checkDigits iban_GB82 ++ bban iban_GB82.
Proof.
  assert (H : NewIBAN (fun r => r) (str "GB82 WEST 1234 5698 7654 32")
              = Returned (Some iban_GB82, None)) by (vm_compute; reflexivity).
  split; [exact H|].
  destruct (NewIBAN_value_invariants _ _ _ H) as (cs & H1 & H2 & H3 & _).
  exists cs. repeat split; assumption.
Defined.
